(** * Lead-management backend: filter compiler, lead queries, auth guard

    A shallow embedding of [src/routes/leads.js], [src/routes/auth.js] and
    [src/middleware/auth.js] (the latter is carried inside [src/server.js]),
    with the properties of the specification stated over it.

    Conventions.
    - A JSON value ([JSON.parse], [req.body], a parsed query string) is a
      [json]; an absent property or [undefined] is [None] in [option json].
    - A JavaScript exception is [Throw e] in the [completion] monad.
    - What the JavaScript engine or a third-party package decides (the
      regular-expression grammar, [Date.parse], [JSON.parse], [jwt.verify],
      password hashing) is a field of a type class; the handlers are
      functions of it. *)

From Stdlib Require Import ZArith QArith Qround Qabs String Ascii List Bool Lia DecimalString.
From stdpp Require Import base gmap strings list option.
Import ListNotations.
Local Open Scope string_scope.
Local Open Scope Z_scope.
Local Open Scope list_scope.
Set Warnings "-register-all".

(** ** Exceptions and completions *)

Inductive exn :=
| TypeError
| SyntaxError
| CastError
| ValidationError
| JsonWebTokenError
| TokenExpiredError
| NotBeforeError
| OtherError (name : string).

(** [error.name] *)
Definition exn_name (e : exn) : string :=
  match e with
  | TypeError => "TypeError"
  | SyntaxError => "SyntaxError"
  | CastError => "CastError"
  | ValidationError => "ValidationError"
  | JsonWebTokenError => "JsonWebTokenError"
  | TokenExpiredError => "TokenExpiredError"
  | NotBeforeError => "NotBeforeError"
  | OtherError name => name
  end.

Inductive completion (A : Type) :=
| Return (a : A)
| Throw (e : exn).
Arguments Return {A} a.
Arguments Throw {A} e.

#[global] Instance completion_ret : MRet completion := fun A a => Return a.
#[global] Instance completion_bind : MBind completion := fun A B f c =>
  match c with
  | Return a => f a
  | Throw e => Throw e
  end.

Definition returns {A} (c : completion A) : Prop := exists a, c = Return a.

(** ** JSON values *)

Inductive json :=
| JNull
| JBool (b : bool)
| JNum (n : Q)
| JStr (s : string)
| JArr (items : list json)
| JObj (props : list (string * json)).

Fixpoint assoc {A} (key : string) (props : list (string * A)) : option A :=
  match props with
  | [] => None
  | (k, v) :: rest => if String.eqb k key then Some v else assoc key rest
  end.

(** [v.key] for the property names the handlers read ([operator], [value],
    [value2], [id]): own properties of an object; arrays, strings and the
    other primitives have none of these names. *)
Definition js_get (v : json) (key : string) : option json :=
  match v with
  | JObj props => assoc key props
  | _ => None
  end.

(** [typeof v] *)
Definition typeof (v : option json) : string :=
  match v with
  | None => "undefined"
  | Some JNull => "object"
  | Some (JBool _) => "boolean"
  | Some (JNum _) => "number"
  | Some (JStr _) => "string"
  | Some (JArr _) => "object"
  | Some (JObj _) => "object"
  end.

(** ToBoolean *)
Definition truthy (v : option json) : bool :=
  match v with
  | None => false
  | Some JNull => false
  | Some (JBool b) => b
  | Some (JNum n) => negb (Qeq_bool n 0)
  | Some (JStr s) => negb (String.eqb s "")
  | Some (JArr _) => true
  | Some (JObj _) => true
  end.

(** [a || b] *)
Definition js_or (a b : option json) : option json :=
  if truthy a then a else b.

(** [v === s] for a string literal [s] *)
Definition is_str (v : option json) (s : string) : bool :=
  match v with
  | Some (JStr t) => String.eqb t s
  | _ => false
  end.

(** [Array.isArray(v)] *)
Definition isArray (v : json) : bool :=
  match v with
  | JArr _ => true
  | _ => false
  end.

Definition index_key (i : nat) : string :=
  NilZero.string_of_uint (Nat.to_uint i).

Fixpoint indexed {A} (i : nat) (l : list A) : list (string * A) :=
  match l with
  | [] => []
  | x :: rest => (index_key i, x) :: indexed (S i) rest
  end.

Fixpoint chars (s : string) : list json :=
  match s with
  | EmptyString => []
  | String c rest => JStr (String c EmptyString) :: chars rest
  end.

(** The own enumerable string-keyed properties of [ToObject(v)]:
    [Object.keys(null)] throws, a number or a boolean has none, a string or
    an array has its indices. *)
Definition own_props (v : json) : completion (list (string * json)) :=
  match v with
  | JNull => Throw TypeError
  | JBool _ => Return []
  | JNum _ => Return []
  | JStr s => Return (indexed 0 (chars s))
  | JArr items => Return (indexed 0 items)
  | JObj props => Return props
  end.

(** ** The engine *)

Class JsRuntime := {
  (** [Number.prototype.toString] *)
  number_to_string : Q -> string;
  (** whether a text is a Pattern of the regular-expression grammar;
      [new RegExp(text, 'i')] throws a SyntaxError when it is not *)
  regexp_pattern_ok : string -> bool;
  (** [new RegExp(source, 'i').test(s)] *)
  regexp_test : string -> string -> bool;
  (** [Date.parse]; [None] is NaN *)
  Date_parse : string -> option Z;
  (** [JSON.parse]; [None] is its SyntaxError *)
  JSON_parse : string -> option json
}.

Definition msPerDay : Z := 24 * 60 * 60 * 1000.

(** The largest time value of a Date, 8.64e15 ms. *)
Definition maxTime : Z := 8640000000000000.

(** TimeClip on a finite number *)
Definition TimeClip (t : Q) : option Z :=
  if Qle_bool (Qabs t) (inject_Z maxTime)
  then Some (if Qle_bool 0 t then Qfloor t else Qceiling t)
  else None.

(** A Date object is its time value; [None] is an Invalid Date. *)
Definition Date_of_time (t : option Z) : option Z :=
  match t with
  | Some ms => if (Z.abs ms <=? maxTime) then Some ms else None
  | None => None
  end.

Section Conversions.
Context `{JsRuntime}.

(** ToString. An object parsed from JSON inherits [Object.prototype]'s
    [toString] unless it has an own property of that name, which is JSON
    data and so not callable: conversion then fails with a TypeError. An
    array is joined with commas, [null] elements printing as empty. *)
Fixpoint ToString (v : json) : completion string :=
  match v with
  | JNull => Return "null"
  | JBool b => Return (if b then "true" else "false")
  | JNum n => Return (number_to_string n)
  | JStr s => Return s
  | JArr items =>
      (fix join (l : list json) : completion string :=
         match l with
         | [] => Return ""
         | x :: rest =>
             s ← match x with JNull => Return "" | _ => ToString x end;
             match rest with
             | [] => Return s
             | _ => r ← join rest; Return (s +:+ "," +:+ r)
             end
         end) items
  | JObj props =>
      match assoc "toString" props with
      | Some _ => Throw TypeError
      | None => Return "[object Object]"
      end
  end.

(** [new Date(v)] *)
Definition Date_new (v : json) : completion (option Z) :=
  match v with
  | JNull => Return (Some 0)
  | JBool b => Return (Some (if b then 1 else 0))
  | JNum n => Return (TimeClip n)
  | JStr s => Return (Date_parse s)
  | JArr _ | JObj _ => s ← ToString v; Return (Date_parse s)
  end.

(** [new RegExp(v, 'i')], kept as its source text *)
Definition RegExp_new (v : json) : completion string :=
  p ← ToString v;
  if regexp_pattern_ok p then Return p else Throw SyntaxError.

End Conversions.

(** ** Query objects

    What [buildFilterQuery] and the list handler hand to the store: a value
    passed through as it came, a RegExp (its source; the flag is always
    [i]), a Date, an array of alternatives ([$or]), or an operator object
    such as [{ $gte: a, $lt: b }]. *)

Inductive qvalue :=
| QJson (v : json)
| QRegExp (source : string)
| QDate (t : option Z)
| QArr (items : list qvalue)
| QObj (props : list (string * qvalue)).

Definition key_in (key : string) (names : list string) : bool :=
  existsb (String.eqb key) names.

Definition prop (v : option json) (key : string) : option json :=
  match v with
  | Some f => js_get f key
  | None => None
  end.

Definition text_fields : list string := ["email"; "company"; "city"; "state"].
Definition enum_fields : list string := ["source"; "status"].
Definition numeric_fields : list string := ["score"; "leadValue"].
Definition temporal_fields : list string := ["createdAt"; "lastActivityAt"].
Definition boolean_fields : list string := ["isQualified"].

Section FilterCompiler.
Context `{JsRuntime}.

(** The body of the [forEach] callback of [buildFilterQuery]: one key of
    [filters], its entry, and the query built so far. *)
Definition filter_entry (key : string) (filter : option json)
    (query : gmap string qvalue) : completion (gmap string qvalue) :=
  if negb (truthy filter) || negb (String.eqb (typeof filter) "object")
  then Return query
  else
    let operator := prop filter "operator" in
    let value_ := prop filter "value" in
    let value2 := prop filter "value2" in
    if negb (truthy operator) then Return query else
    match value_ with
    | None => Return query
    | Some value =>
        if key_in key text_fields then
          let query :=
            if is_str operator "equals" then <[key := QJson value]> query
            else query in
          if is_str operator "contains"
          then re ← RegExp_new value; Return (<[key := QRegExp re]> query)
          else Return query
        else if key_in key enum_fields then
          let query :=
            if is_str operator "equals" then <[key := QJson value]> query
            else query in
          let query :=
            if is_str operator "in" && isArray value
            then <[key := QObj [("$in", QJson value)]]> query
            else query in
          Return query
        else if key_in key numeric_fields then
          let query :=
            if is_str operator "equals" then <[key := QJson value]> query
            else query in
          let query :=
            if is_str operator "gt"
            then <[key := QObj [("$gt", QJson value)]]> query
            else query in
          let query :=
            if is_str operator "lt"
            then <[key := QObj [("$lt", QJson value)]]> query
            else query in
          let query :=
            match value2 with
            | Some v2 =>
                if is_str operator "between"
                then <[key := QObj [("$gte", QJson value); ("$lte", QJson v2)]]> query
                else query
            | None => query
            end in
          Return query
        else if key_in key temporal_fields then
          query ←
            (if is_str operator "on" then
               date ← Date_new value;
               let nextDay := Date_of_time ((fun t => t + msPerDay) <$> date) in
               Return (<[key := QObj [("$gte", QDate date); ("$lt", QDate nextDay)]]> query)
             else Return query);
          query ←
            (if is_str operator "before" then
               d ← Date_new value;
               Return (<[key := QObj [("$lt", QDate d)]]> query)
             else Return query);
          query ←
            (if is_str operator "after" then
               d ← Date_new value;
               Return (<[key := QObj [("$gt", QDate d)]]> query)
             else Return query);
          match value2 with
          | Some v2 =>
              if is_str operator "between" then
                d1 ← Date_new value;
                d2 ← Date_new v2;
                Return (<[key := QObj [("$gte", QDate d1); ("$lte", QDate d2)]]> query)
              else Return query
          | None => Return query
          end
        else if key_in key boolean_fields then
          Return
            (if is_str operator "equals"
             then <[key := QJson (JBool (is_str (Some value) "true"
                                         || match value with JBool true => true | _ => false end))]> query
             else query)
        else Return query
    end.

(** [Object.keys(filters).forEach(key => ...)], an exception of the
    callback ending the loop. *)
Fixpoint forEach_key (keys : list string) (props : list (string * json))
    (query : gmap string qvalue) : completion (gmap string qvalue) :=
  match keys with
  | [] => Return query
  | key :: rest =>
      query' ← filter_entry key (assoc key props) query;
      forEach_key rest props query'
  end.

Definition buildFilterQuery (filters : json) : completion (gmap string qvalue) :=
  props ← own_props filters;
  forEach_key (map fst props) props ∅.

End FilterCompiler.

(** An engine for the closed examples below: numbers print as the decimal
    of their integer part, a pattern is refused when it is the lone opening
    parenthesis, a RegExp test is equality, no date text or JSON text is
    understood. *)
Definition print_Z (z : Z) : string :=
  NilZero.string_of_int (Z.to_int z).

#[local] Instance sample_runtime : JsRuntime := {|
  number_to_string q := print_Z (Qfloor q);
  regexp_pattern_ok p := negb (String.eqb p "(");
  regexp_test source s := String.eqb source s;
  Date_parse _ := None;
  JSON_parse _ := None
|}.

Definition entry (operator value : json) : json :=
  JObj [("operator", operator); ("value", value)].


(** The operators the specification lists for each field class. *)
Definition listed_operators (key : string) : list string :=
  if key_in key text_fields then ["equals"; "contains"]
  else if key_in key enum_fields then ["equals"; "in"]
  else if key_in key numeric_fields then ["equals"; "gt"; "lt"; "between"]
  else if key_in key temporal_fields then ["on"; "before"; "after"; "between"]
  else if key_in key boolean_fields then ["equals"]
  else [].

Definition recognized (key : string) : bool :=
  key_in key (text_fields ++ enum_fields ++ numeric_fields ++ temporal_fields ++ boolean_fields).

(** A malformed entry: not an object, without [operator] or [value], under
    an unknown field, or with an operator that is not listed for the field. *)
Definition malformed (key : string) (filter : option json) : Prop :=
  truthy filter = false \/
  typeof filter <> "object" \/
  truthy (prop filter "operator") = false \/
  prop filter "value" = None \/
  recognized key = false \/
  (forall op, In op (listed_operators key) -> is_str (prop filter "operator") op = false).

Section Converts.
Context `{JsRuntime}.

(** The conversions an entry can reach succeed: every [value] and
    [value2] has a string form, and the [value] of a [contains] on a text
    field is a pattern the engine accepts. *)
Definition converts (key : string) (filter : option json) : Prop :=
  (forall v, prop filter "value" = Some v \/ prop filter "value2" = Some v ->
             returns (ToString v)) /\
  (forall v p, key_in key text_fields = true ->
               is_str (prop filter "operator") "contains" = true ->
               prop filter "value" = Some v ->
               ToString v = Return p -> regexp_pattern_ok p = true).

(** The entry reaches a conversion that throws: it is an object with a
    truthy [operator] and a [value], and either [new RegExp(value, 'i')]
    throws under [contains] on a text field, or, on a temporal field,
    [new Date(value)] throws under [on], [before] or [after], or
    [new Date(value)] or [new Date(value2)] throws under a [between] that
    has a [value2]. *)
Definition conversion_throws (key : string) (filter : option json) : Prop :=
  truthy filter = true /\
  typeof filter = "object" /\
  truthy (prop filter "operator") = true /\
  exists value, prop filter "value" = Some value /\
    ((key_in key text_fields = true /\
      is_str (prop filter "operator") "contains" = true /\
      ~ returns (RegExp_new value))
     \/
     (key_in key temporal_fields = true /\
      (((is_str (prop filter "operator") "on" = true \/
         is_str (prop filter "operator") "before" = true \/
         is_str (prop filter "operator") "after" = true) /\
        ~ returns (Date_new value))
       \/
       (is_str (prop filter "operator") "between" = true /\
        exists value2, prop filter "value2" = Some value2 /\
          (~ returns (Date_new value) \/ ~ returns (Date_new value2)))))).

End Converts.

(** ** The lead store

    [models/Lead.js] and [models/User.js] are not among the sources: the
    collections are reached through Mongoose. A document is a finite map
    from field names to stored values; a collection is the list of its
    documents in natural order. *)

Inductive bson :=
| BNull
| BBool (b : bool)
| BNum (n : Q)
| BStr (s : string)
| BDate (t : Z)
| BId (id : string).

Record store := {
  leads : list (gmap string bson);
  users : list (gmap string bson)
}.

Definition bson_eqb (a b : bson) : bool :=
  match a, b with
  | BNull, BNull => true
  | BBool x, BBool y => Bool.eqb x y
  | BNum x, BNum y => Qeq_bool x y
  | BStr x, BStr y => String.eqb x y
  | BDate x, BDate y => Z.eqb x y
  | BId x, BId y => String.eqb x y
  | _, _ => false
  end.

(** Order inside one type; values of different types do not compare. *)
Definition bson_ltb (a b : bson) : bool :=
  match a, b with
  | BBool x, BBool y => negb x && y
  | BNum x, BNum y => negb (Qle_bool y x)
  | BStr x, BStr y => String.ltb x y
  | BDate x, BDate y => Z.ltb x y
  | BId x, BId y => String.ltb x y
  | _, _ => false
  end.

(** The sort order across types: null, numbers, strings, object ids,
    booleans, dates. *)
Definition bson_rank (a : bson) : Z :=
  match a with
  | BNull => 0
  | BNum _ => 1
  | BStr _ => 2
  | BId _ => 3
  | BBool _ => 4
  | BDate _ => 5
  end.

Definition bson_leb (a b : bson) : bool :=
  if Z.eqb (bson_rank a) (bson_rank b) then negb (bson_ltb b a)
  else Z.ltb (bson_rank a) (bson_rank b).

(** The stored value a query value denotes, when it is a scalar. *)
Definition qscalar (v : qvalue) : option bson :=
  match v with
  | QJson JNull => Some BNull
  | QJson (JBool b) => Some (BBool b)
  | QJson (JNum n) => Some (BNum n)
  | QJson (JStr s) => Some (BStr s)
  | QDate (Some t) => Some (BDate t)
  | _ => None
  end.

Section Matching.
Context `{JsRuntime}.

(** Modelled from the spec: the backing store's reading of a query, which
    lies in MongoDB behind [models/Lead.js]. Equality with [null] also
    matches a missing field, a RegExp matches string fields, the
    comparison operators hold between values of one type, [$in] holds
    when one element is equal. The values are matched as compiled: the
    schema cast Mongoose applies first is the identity on values of the
    field's own type, which is where the properties below use it. *)
Definition eq_matches (c : qvalue) (fv : option bson) : bool :=
  match c with
  | QJson JNull =>
      match fv with
      | None | Some BNull => true
      | _ => false
      end
  | QRegExp source =>
      match fv with
      | Some (BStr s) => regexp_test source s
      | _ => false
      end
  | _ =>
      match qscalar c, fv with
      | Some a, Some x => bson_eqb a x
      | _, _ => false
      end
  end.

Definition op_matches (op : string) (arg : qvalue) (fv : option bson) : bool :=
  if String.eqb op "$in" then
    match arg with
    | QJson (JArr items) => existsb (fun item => eq_matches (QJson item) fv) items
    | _ => false
    end
  else
    match qscalar arg, fv with
    | Some a, Some x =>
        if String.eqb op "$gt" then bson_ltb a x
        else if String.eqb op "$gte" then bson_ltb a x || bson_eqb a x
        else if String.eqb op "$lt" then bson_ltb x a
        else if String.eqb op "$lte" then bson_ltb x a || bson_eqb a x
        else false
    | _, _ => false
    end.

Definition cond_matches (c : qvalue) (fv : option bson) : bool :=
  match c with
  | QObj ops => forallb (fun '(op, arg) => op_matches op arg fv) ops
  | _ => eq_matches c fv
  end.

(** One alternative of [$or]: an object of field conditions. *)
Definition alt_matches (alt : qvalue) (doc : gmap string bson) : bool :=
  match alt with
  | QObj conds => forallb (fun '(field, c) => cond_matches c (doc !! field)) conds
  | _ => false
  end.

Definition doc_matches (query : gmap string qvalue) (doc : gmap string bson) : bool :=
  forallb
    (fun '(key, c) =>
       if String.eqb key "$or" then
         match c with
         | QArr alts => existsb (fun alt => alt_matches alt doc) alts
         | _ => false
         end
       else cond_matches c (doc !! key))
    (map_to_list query).

End Matching.

(** An Invalid Date anywhere in a query is refused by the cast. *)
Fixpoint has_invalid_date (v : qvalue) : bool :=
  match v with
  | QDate None => true
  | QArr items => existsb has_invalid_date items
  | QObj props => existsb (fun p => has_invalid_date (snd p)) props
  | _ => false
  end.

Definition query_castable (query : gmap string qvalue) : bool :=
  forallb (fun p => negb (has_invalid_date (snd p))) (map_to_list query).

Fixpoint insert_sorted {A} (le : A -> A -> bool) (x : A) (l : list A) : list A :=
  match l with
  | [] => [x]
  | y :: rest => if le x y then x :: l else y :: insert_sorted le x rest
  end.

Definition sort_by {A} (le : A -> A -> bool) (l : list A) : list A :=
  foldr (insert_sorted le) [] l.

Definition field_or_null (doc : gmap string bson) (field : string) : bson :=
  default BNull (doc !! field).

(** [.sort({ [sortBy]: sortOrder })], a missing field sorting as null. *)
Definition sort_docs (sortBy : string) (sortOrder : Z) (docs : list (gmap string bson))
    : list (gmap string bson) :=
  sort_by
    (fun a b =>
       if Z.eqb sortOrder 1
       then bson_leb (field_or_null a sortBy) (field_or_null b sortBy)
       else bson_leb (field_or_null b sortBy) (field_or_null a sortBy))
    docs.

(** ** Numbers

    The numbers of the list handler are doubles that hold an integer or an
    infinity; NaN is kept apart, as [None]. *)
Inductive number :=
| Finite (n : Z)
| Infinite (negative : bool).

(** The double nearest to an integer: itself up to 2^53 in absolute value,
    beyond that the nearest multiple of the power of two that leaves 53
    bits, a tie going to the even one, and an infinity from 2^1024 on. *)
Definition round_to_double (n : Z) : number :=
  let a := Z.abs n in
  if a <=? 2 ^ 53 then Finite n
  else
    let shift := Z.log2 a - 52 in
    let q := Z.shiftr a shift in
    let rest := Z.land a (Z.ones shift) in
    let half := 2 ^ (shift - 1) in
    let q := if (half <? rest) || ((rest =? half) && Z.odd q) then q + 1 else q in
    let r := Z.shiftl q shift in
    if 2 ^ 1024 <=? r then Infinite (n <? 0) else Finite (Z.sgn n * r).

(** [x - 1] and [x * y]. On finite numbers they are exact here, as the
    doubles of the code are up to 2^53; beyond that the code rounds, and
    either product skips every lead of a collection that can exist. *)
Definition number_pred (x : number) : number :=
  match x with
  | Finite n => Finite (n - 1)
  | Infinite negative => Infinite negative
  end.

Definition number_mul (x y : number) : option number :=
  match x, y with
  | Finite a, Finite b => Some (Finite (a * b))
  | Finite a, Infinite negative | Infinite negative, Finite a =>
      if a =? 0 then None else Some (Infinite (xorb negative (a <? 0)))
  | Infinite negative, Infinite negative' => Some (Infinite (xorb negative negative'))
  end.

(** The integer a finite number holds; 0 stands for an infinity, which is
    no page and no limit. *)
Definition finite_part (x : number) : Z :=
  match x with
  | Finite n => n
  | Infinite _ => 0
  end.

Definition maxInt64 : Z := 2 ^ 63 - 1.

(** [.skip(n)] and [.limit(n)] of a cursor, for [n] at least 0: what is
    left after the first [n] documents, and the first [n] of them. *)
Definition skip_docs {A} (n : Z) (docs : list A) : list A :=
  if Z.of_nat (length docs) <=? n then [] else drop (Z.to_nat n) docs.

Definition limit_docs {A} (n : Z) (docs : list A) : list A :=
  if Z.of_nat (length docs) <=? n then docs else take (Z.to_nat n) docs.

Section Store.
Context `{JsRuntime}.

(** [Lead.find(query).sort(sort).skip(skip).limit(limit)]. Mongoose casts
    the query first. The server then takes [skip] and [limit] as 64-bit
    integers: it refuses a NaN or an infinity, a negative [skip], and a
    number beyond 2^63 - 1; the driver sends a negative [limit] as its
    absolute value. *)
Definition Lead_find (st : store) (query : gmap string qvalue)
    (sortBy : string) (sortOrder : Z) (skip : option number) (limit : number)
    : completion (list (gmap string bson)) :=
  if query_castable query
  then
    match skip, limit with
    | Some (Finite skip), Finite limit =>
        if (0 <=? skip) && (skip <=? maxInt64) && (Z.abs limit <=? maxInt64)
        then Return (limit_docs (Z.abs limit)
                       (skip_docs skip
                          (sort_docs sortBy sortOrder
                             (List.filter (doc_matches query) (leads st)))))
        else Throw (OtherError "MongoServerError")
    | _, _ => Throw (OtherError "MongoServerError")
    end
  else Throw CastError.

(** [Lead.countDocuments(query)] *)
Definition Lead_countDocuments (st : store) (query : gmap string qvalue) : completion Z :=
  if query_castable query
  then Return (Z.of_nat (length (List.filter (doc_matches query) (leads st))))
  else Throw CastError.

End Store.

Definition has_id (id : string) (d : gmap string bson) : bool :=
  match d !! "_id" with
  | Some (BId i) => String.eqb i id
  | _ => false
  end.

Definition find_by_id (id : string) (docs : list (gmap string bson)) : option (gmap string bson) :=
  List.find (has_id id) docs.

(** [.populate('createdBy', 'firstName lastName email')]: the document and,
    beside it, the creator's public fields when the reference resolves. *)
Record populated := {
  doc : gmap string bson;
  creator : option (gmap string bson)
}.

Definition public_fields (u : gmap string bson) : gmap string bson :=
  filter (fun kv => key_in (fst kv) ["_id"; "firstName"; "lastName"; "email"] = true) u.

Definition populate (st : store) (d : gmap string bson) : populated :=
  {| doc := d;
     creator := match d !! "createdBy" with
                | Some (BId uid) => public_fields <$> find_by_id uid (users st)
                | _ => None
                end |}.

(** [$group: { _id: '$field', count: { $sum: 1 } }], groups in order of
    first appearance, a missing field grouping under null. *)
Fixpoint bump (k : bson) (groups : list (bson * nat)) : list (bson * nat) :=
  match groups with
  | [] => [(k, 1%nat)]
  | (k', n) :: rest =>
      if bson_eqb k k' then (k', S n) :: rest else (k', n) :: bump k rest
  end.

Definition group_count (field : string) (docs : list (gmap string bson)) : list (bson * nat) :=
  foldl (fun groups d => bump (field_or_null d field) groups) [] docs.

Definition numeric_values (field : string) (docs : list (gmap string bson)) : list Q :=
  omap (fun d => match d !! field with
                 | Some (BNum n) => Some n
                 | _ => None
                 end) docs.

Definition Qsum (l : list Q) : Q := foldr Qplus 0%Q l.

(** [$group: { _id: null, avgScore: { $avg: '$score' } }]: no group on an
    empty collection; otherwise one group, whose average is taken over the
    numeric values and is null when there is none. *)
Definition avg_group (field : string) (docs : list (gmap string bson)) : list (option Q) :=
  match docs with
  | [] => []
  | _ =>
      match numeric_values field docs with
      | [] => [None]
      | vs => [Some (Qsum vs / inject_Z (Z.of_nat (length vs)))%Q]
      end
  end.

(** ** Requests and responses *)

Inductive method := GET | POST | PUT | DELETE.

(** A request as a handler sees it. [req_path] holds the path segments
    below the router's mount point. [validation_errors] is
    [validationResult(req).array().map(err => err.msg)]: the outcome of the
    express-validator chain of the route, which ran before the handler and
    left its sanitised values in the request. [body] is what [express.json]
    left in [req.body]: the parsed object, or the empty object. *)
Record request := {
  req_method : method;
  req_path : list string;
  cookies_token : option json;
  authorization : option string;
  query_page : option string;
  query_limit : option string;
  query_search : option string;
  query_sortBy : option string;
  query_sortOrder : option string;
  query_filters : option json;
  body : json;
  validation_errors : list string
}.


Record pagination := {
  currentPage : Z;
  totalPages : Z;
  totalLeads : Z;
  hasNextPage : bool;
  hasPrevPage : bool;
  limit : Z
}.

Record stats := {
  stats_totalLeads : Z;
  statusStats : list (bson * nat);
  sourceStats : list (bson * nat);
  avgScore : Q
}.

Inductive payload :=
| ErrorBody (error : string)
| ValidationBody (error : string) (details : list string)
| MessageBody (message : string)
| ListBody (leads : list populated) (page : pagination)
| StatsBody (s : stats)
| LeadBody (lead : populated)
| LeadMessageBody (message : string) (lead : populated)
| UserBody (user : gmap string bson)
| UserMessageBody (message : string) (user : gmap string bson).

(** What a handler does with the request: [res.status(code).json(body)],
    or [next(error)], which hands the error to the error handler. *)
Inductive response :=
| Json (status : Z) (body : payload)
| NextError (e : exn).

(** ** Numbers from the query string *)

Definition is_space (c : ascii) : bool :=
  let n := nat_of_ascii c in
  ((9 <=? n) && (n <=? 13) || (n =? 32))%nat.

Fixpoint skip_spaces (s : string) : string :=
  match s with
  | String c rest => if is_space c then skip_spaces rest else s
  | EmptyString => s
  end.

Definition digit_value (radix : Z) (c : ascii) : option Z :=
  let n := Z.of_nat (nat_of_ascii c) in
  let d := if (48 <=? n) && (n <=? 57) then Some (n - 48)
           else if (97 <=? n) && (n <=? 122) then Some (n - 87)
           else if (65 <=? n) && (n <=? 90) then Some (n - 55)
           else None in
  match d with
  | Some v => if v <? radix then Some v else None
  | None => None
  end.

(** The longest prefix of digits, read in the radix; [None] when empty. *)
Fixpoint digits_prefix (radix : Z) (s : string) (acc : option Z) : option Z :=
  match s with
  | String c rest =>
      match digit_value radix c with
      | Some d => digits_prefix radix rest (Some (default 0 acc * radix + d))
      | None => acc
      end
  | EmptyString => acc
  end.

(** The integer [parseInt(s)] reads: white space, a sign, [0x] for radix
    16, then the longest prefix of digits; [None] when there is no digit. *)
Definition mathInt (s : string) : option Z :=
  let s := skip_spaces s in
  let '(sign, s) :=
    match s with
    | String "-" rest => (-1, rest)
    | String "+" rest => (1, rest)
    | _ => (1, s)
    end in
  let '(radix, s) :=
    match s with
    | String "0" (String "x" rest) => (16, rest)
    | String "0" (String "X" rest) => (16, rest)
    | _ => (10, s)
    end in
  (fun n => sign * n) <$> digits_prefix radix s None.

(** [parseInt(s)]: the double nearest to the integer read; [None] is NaN. *)
Definition parseInt (s : string) : option number :=
  round_to_double <$> mathInt s.

(** [parseInt(param) || fallback]: NaN and 0 are falsy, an infinity is
    truthy, and [parseInt(undefined)] is NaN. *)
Definition parseInt_or (param : option string) (fallback : Z) : number :=
  match param ≫= parseInt with
  | Some (Finite n) => if n =? 0 then Finite fallback else Finite n
  | Some (Infinite negative) => Infinite negative
  | None => Finite fallback
  end.

(** [Math.ceil(total / limit)]. The quotient of a count below 2^53 by a
    non-zero integer never rounds onto an integer it is not, so the ceiling
    of the double is the ceiling of the exact quotient. *)
Definition Math_ceil_div (total limit : Z) : Z := - ((- total) / limit).

(** ** Updating a lead *)

(** A value of an update document: JSON as it came in the body, or a Date. *)
Inductive uvalue :=
| UJson (v : json)
| UDate (t : option Z).

Fixpoint assoc_set {A} (key : string) (v : A) (props : list (string * A)) : list (string * A) :=
  match props with
  | [] => [(key, v)]
  | (k, old) :: rest =>
      if String.eqb k key then (k, v) :: rest else (k, old) :: assoc_set key v rest
  end.








(** ** The lead handlers *)

Section LeadHandlers.
Context `{JsRuntime}.

Definition or_zero (groups : list (option Q)) : Q :=
  match groups with
  | Some m :: _ => if Qeq_bool m 0 then 0%Q else m
  | _ => 0%Q
  end.

(** [router.get('/stats/overview')] *)
Definition stats_overview (req : request) (st : store) : response :=
  let totalLeads := Z.of_nat (length (leads st)) in
  let statusStats := group_count "status" (leads st) in
  let sourceStats := group_count "source" (leads st) in
  let avgScore := avg_group "score" (leads st) in
  Json 200 (StatsBody {|
    stats_totalLeads := totalLeads;
    statusStats := statusStats;
    sourceStats := sourceStats;
    avgScore := or_zero avgScore
  |}).

(** [parseInt(req.query.page) || 1] and [parseInt(req.query.limit) || 20] *)
Definition page_number (req : request) : number := parseInt_or (query_page req) 1.
Definition limit_number (req : request) : number := parseInt_or (query_limit req) 20.

Definition list_page (req : request) : Z := finite_part (page_number req).
Definition list_limit (req : request) : Z := finite_part (limit_number req).

Definition list_sortBy (req : request) : string :=
  match query_sortBy req with
  | Some s => if String.eqb s "" then "createdAt" else s
  | None => "createdAt"
  end.

Definition list_sortOrder (req : request) : Z :=
  match query_sortOrder req with
  | Some s => if String.eqb s "asc" then 1 else -1
  | None => -1
  end.

(** The filters of the request, compiled; an exception of [JSON.parse] or
    of [buildFilterQuery] is caught by the inner [try]. *)
Definition list_filters (req : request) : completion (gmap string qvalue) :=
  if truthy (query_filters req) then
    match query_filters req with
    | Some (JStr text) =>
        match JSON_parse text with
        | Some filters => buildFilterQuery filters
        | None => Throw SyntaxError
        end
    | Some filters => buildFilterQuery filters
    | None => Return ∅
    end
  else Return ∅.

Definition search_fields : list string :=
  ["firstName"; "lastName"; "email"; "company"; "city"; "state"].

(** [query.$or = [{ firstName: new RegExp(search, 'i') }, ...]] *)
Definition list_search (req : request) (query : gmap string qvalue)
    : completion (gmap string qvalue) :=
  match query_search req with
  | Some search =>
      if String.eqb search "" then Return query
      else
        re ← RegExp_new (JStr search);
        Return (<["$or" := QArr (map (fun f => QObj [(f, QRegExp re)]) search_fields)]> query)
  | None => Return query
  end.

Definition mk_pagination (page limit total : Z) : pagination :=
  let totalPages := Math_ceil_div total limit in
  {| currentPage := page;
     totalPages := totalPages;
     totalLeads := total;
     hasNextPage := page <? totalPages;
     hasPrevPage := 1 <? page;
     limit := limit |}.

(** [router.get('/')] *)
Definition list_leads (req : request) (st : store) : response :=
  match validation_errors req with
  | _ :: _ => Json 400 (ValidationBody "Validation failed" (validation_errors req))
  | [] =>
      let page := page_number req in
      let limit := limit_number req in
      let skip := number_mul (number_pred page) limit in
      match list_filters req with
      | Throw _ => Json 400 (ErrorBody "Invalid filters format")
      | Return query =>
          match
            query ← list_search req query;
            found ← Lead_find st query (list_sortBy req) (list_sortOrder req) skip limit;
            total ← Lead_countDocuments st query;
            Return (found, total)
          with
          | Throw e => NextError e
          | Return (found, total) =>
              Json 200 (ListBody (map (populate st) found)
                          (mk_pagination (finite_part page) (finite_part limit) total))
          end
      end
  end.

(** [{ ...req.body }], then [lastActivityAt] replaced by a Date when the
    body carries a truthy one. *)
Definition updateData_of (req : request) : completion (list (string * uvalue)) :=
  let updateData :=
    match own_props (body req) with
    | Return props => map (fun p => (fst p, UJson (snd p))) props
    | Throw _ => []
    end in
  match body req with
  | JNull => Throw TypeError
  | _ =>
      match js_get (body req) "lastActivityAt" with
      | Some v =>
          if truthy (Some v)
          then d ← Date_new v; Return (assoc_set "lastActivityAt" (UDate d) updateData)
          else Return updateData
      | None => Return updateData
      end
  end.


End LeadHandlers.

(** ** Session tokens and the auth guard *)

(** The claims of a signed token: the payload, and the issue and expiry
    instants in seconds. *)
Record token := {
  tok_payload : json;
  tok_iat : Z;
  tok_exp : option Z
}.

(** What lies behind the auth routes: the jsonwebtoken package under the
    secret of the process, and the User model of [models/User.js], which is
    not among the sources. *)
Class Backend := {
  (** the compact form of a token, signed under the secret; the package
      throws when there is no secret to sign with *)
  jwt_encode : token -> completion string;
  (** [jwt.verify(token, process.env.JWT_SECRET)]: the decoded payload, or
      the package's JsonWebTokenError, TokenExpiredError, NotBeforeError *)
  jwt_verify : json -> completion json;
  (** [User.findById(id)] *)
  User_findById : store -> option json -> completion (option (gmap string bson));
  (** [User.findOne({ email })] *)
  User_findOne : store -> option json -> completion (option (gmap string bson));
  (** [new User({ firstName, lastName, email, password }).save()] *)
  User_save : store -> option json -> option json -> option json -> option json ->
              completion (gmap string bson * store);
  (** [user.comparePassword(password)] *)
  comparePassword : gmap string bson -> option json -> completion bool
}.

Definition lower_ascii (c : ascii) : ascii :=
  let n := nat_of_ascii c in
  if ((65 <=? n) && (n <=? 90))%nat then ascii_of_nat (n + 32) else c.

Fixpoint lower (s : string) : string :=
  match s with
  | EmptyString => EmptyString
  | String c rest => String (lower_ascii c) (lower rest)
  end.

(** The units of the [ms] package, in milliseconds. *)
Definition unit_ms (unit : string) : option Z :=
  let u := lower unit in
  if key_in u ["years"; "year"; "yrs"; "yr"; "y"] then Some 31557600000
  else if key_in u ["weeks"; "week"; "w"] then Some 604800000
  else if key_in u ["days"; "day"; "d"] then Some 86400000
  else if key_in u ["hours"; "hour"; "hrs"; "hr"; "h"] then Some 3600000
  else if key_in u ["minutes"; "minute"; "mins"; "min"; "m"] then Some 60000
  else if key_in u ["seconds"; "second"; "secs"; "sec"; "s"] then Some 1000
  else if key_in u ["milliseconds"; "millisecond"; "msecs"; "msec"; "ms"; ""] then Some 1
  else None.

(** A run of decimal digits and what follows it. *)
Fixpoint read_digits (s : string) (acc : option Z) : option Z * string :=
  match s with
  | String c rest =>
      match digit_value 10 c with
      | Some d => read_digits rest (Some (default 0 acc * 10 + d))
      | None => (acc, s)
      end
  | EmptyString => (acc, s)
  end.

Fixpoint skip_blanks (s : string) : string :=
  match s with
  | String " " rest => skip_blanks rest
  | _ => s
  end.

(** [ms(text)] on a whole number followed by a unit, as in ['7d']. *)
Definition ms (text : string) : option Z :=
  match read_digits text None with
  | (Some n, rest) => (fun u => n * u) <$> unit_ms (skip_blanks rest)
  | (None, _) => None
  end.

(** The expiry jsonwebtoken computes from [expiresIn]:
    [Math.floor(iat + ms(expiresIn) / 1000)]. *)
Definition timespan (expiresIn : string) (iat : Z) : option Z :=
  (fun m => iat + m / 1000) <$> ms expiresIn.

(** [jwt.sign({ id: userId }, secret, { expiresIn: '7d' })] at clock
    reading [now], in milliseconds. *)
Definition sign_claims (userId : string) (now : Z) : token :=
  let iat := now / 1000 in
  {| tok_payload := JObj [("id", JStr userId)];
     tok_iat := iat;
     tok_exp := timespan "7d" iat |}.

Fixpoint split_on (sep : ascii) (s : string) : list string :=
  match s with
  | EmptyString => [""]
  | String c rest =>
      if Ascii.eqb c sep then "" :: split_on sep rest
      else match split_on sep rest with
           | first :: others => String c first :: others
           | [] => [String c ""]
           end
  end.

Inductive guard :=
| Pass (user : gmap string bson)
| Reject (res : response).

Section Auth.
Context `{Backend}.

(** [jwt.sign({ id: userId }, process.env.JWT_SECRET, { expiresIn: '7d' })] *)
Definition generateToken (userId : string) (now : Z) : completion string :=
  jwt_encode (sign_claims userId now).

(** [req.cookies.token || req.headers.authorization?.split(" ")[1]] *)
Definition request_token (req : request) : option json :=
  js_or (cookies_token req)
        (JStr <$> (authorization req ≫= fun h => nth_error (split_on " " h) 1)).

(** The [catch] of [protect] *)
Definition protect_catch (e : exn) : response :=
  if String.eqb (exn_name e) "JsonWebTokenError"
  then Json 401 (ErrorBody "Invalid token.")
  else if String.eqb (exn_name e) "TokenExpiredError"
  then Json 401 (ErrorBody "Token expired.")
  else Json 500 (ErrorBody "Server error during authentication.").

(** [protect]: [Pass user] is [req.user = user; next()]. *)
Definition protect (req : request) (st : store) : guard :=
  match request_token req with
  | Some token =>
      if negb (truthy (Some token))
      then Reject (Json 401 (ErrorBody "Access denied. No token provided."))
      else
        match
          decoded ← jwt_verify token;
          User_findById st (js_get decoded "id")
        with
        | Return None => Reject (Json 401 (ErrorBody "Invalid token. User not found."))
        | Return (Some user) => Pass (delete "password" user)
        | Throw e => Reject (protect_catch e)
        end
  | None => Reject (Json 401 (ErrorBody "Access denied. No token provided."))
  end.

End Auth.

(** ** The auth handlers and the session cookie *)

Record cookie_options := {
  httpOnly : bool;
  secure : bool;
  sameSite : string;
  maxAge : option Z;
  cookie_path : string
}.

Inductive cookie_effect :=
| NoCookie
| SetCookie (name value : string) (options : cookie_options)
| ClearCookie (name : string) (options : cookie_options).

Section AuthHandlers.
Context `{Backend}.

Definition user_id (user : gmap string bson) : string :=
  match user !! "_id" with
  | Some (BId id) => id
  | _ => ""
  end.

(** [router.post('/register')] *)
Definition register (req : request) (now : Z) (st : store)
    : response * store * cookie_effect :=
  match validation_errors req with
  | _ :: _ =>
      (Json 400 (ValidationBody "Validation failed" (validation_errors req)), st, NoCookie)
  | [] =>
      let firstName := js_get (body req) "firstName" in
      let lastName := js_get (body req) "lastName" in
      let email := js_get (body req) "email" in
      let password := js_get (body req) "password" in
      match User_findOne st email with
      | Throw e => (NextError e, st, NoCookie)
      | Return (Some _) =>
          (Json 400 (ErrorBody "User already exists with this email"), st, NoCookie)
      | Return None =>
          match User_save st firstName lastName email password with
          | Throw e => (NextError e, st, NoCookie)
          | Return (user, st') =>
              match generateToken (user_id user) now with
              | Throw e => (NextError e, st', NoCookie)
              | Return token =>
                  (Json 201 (UserMessageBody "User registered successfully"
                               (delete "password" user)),
                   st',
                   SetCookie "token" token {|
                     httpOnly := true;
                     secure := true;
                     sameSite := "none";
                     maxAge := Some (7 * 24 * 60 * 60 * 1000);
                     cookie_path := "/"
                   |})
              end
          end
      end
  end.

(** [router.post('/login')] *)
Definition login (req : request) (now : Z) (st : store)
    : response * store * cookie_effect :=
  match validation_errors req with
  | _ :: _ =>
      (Json 400 (ValidationBody "Validation failed" (validation_errors req)), st, NoCookie)
  | [] =>
      let email := js_get (body req) "email" in
      let password := js_get (body req) "password" in
      match User_findOne st email with
      | Throw e => (NextError e, st, NoCookie)
      | Return None => (Json 401 (ErrorBody "Invalid credentials"), st, NoCookie)
      | Return (Some user) =>
          match comparePassword user password with
          | Throw e => (NextError e, st, NoCookie)
          | Return false => (Json 401 (ErrorBody "Invalid credentials"), st, NoCookie)
          | Return true =>
              match generateToken (user_id user) now with
              | Throw e => (NextError e, st, NoCookie)
              | Return token =>
                  (Json 200 (UserMessageBody "Login successful" (delete "password" user)),
                   st,
                   SetCookie "token" token {|
                     httpOnly := true;
                     secure := true;
                     sameSite := "none";
                     maxAge := Some (7 * 24 * 60 * 60 * 1000);
                     cookie_path := "/"
                   |})
              end
          end
      end
  end.

(** [router.post('/logout')] *)
Definition logout (req : request) (st : store) : response * store * cookie_effect :=
  (Json 200 (MessageBody "Logout successful"),
   st,
   ClearCookie "token" {|
     httpOnly := true;
     secure := true;
     sameSite := "none";
     maxAge := None;
     cookie_path := "/"
   |}).

End AuthHandlers.

(** ** Routers *)

Inductive handler :=
| StatsOverview | ListLeads | GetLead | CreateLead | UpdateLead | DeleteLead
| Register | Login | Logout | Me.

Inductive middleware :=
| Protect
| Validate (chain : string)
| Handle (h : handler).

Inductive segment :=
| Lit (s : string)
| Param (name : string).

(** A layer of a router: [router.use(mw)] has neither method nor path. *)
Record layer := {
  layer_method : option method;
  layer_path : option (list segment);
  layer_stack : list middleware
}.

Definition method_eqb (a b : method) : bool :=
  match a, b with
  | GET, GET | POST, POST | PUT, PUT | DELETE, DELETE => true
  | _, _ => false
  end.

(** A route path against the segments of the request path; literal segments
    compare without regard to case, as Express routes by default. *)
Fixpoint path_matches (pattern : list segment) (path : list string) : bool :=
  match pattern, path with
  | [], [] => true
  | Lit s :: pattern', seg :: path' =>
      String.eqb (lower s) (lower seg) && path_matches pattern' path'
  | Param _ :: pattern', seg :: path' => path_matches pattern' path'
  | _, _ => false
  end.

Definition layer_matches (l : layer) (req : request) : bool :=
  match layer_method l with
  | Some m => method_eqb m (req_method req)
  | None => true
  end
  && match layer_path l with
     | Some pattern => path_matches pattern (req_path req)
     | None => true
     end.

Definition use (mw : middleware) : layer :=
  {| layer_method := None; layer_path := None; layer_stack := [mw] |}.

Definition route (m : method) (pattern : list segment) (stack : list middleware) : layer :=
  {| layer_method := Some m; layer_path := Some pattern; layer_stack := stack |}.

(** [routes/leads.js], in the order of the file *)
Definition leadRoutes : list layer := [
  use Protect;
  route GET [Lit "stats"; Lit "overview"] [Handle StatsOverview];
  route GET [] [Validate "list"; Handle ListLeads];
  route GET [Param "id"] [Handle GetLead];
  route POST [] [Validate "validateLead"; Handle CreateLead];
  route PUT [Param "id"] [Validate "validateLead"; Handle UpdateLead];
  route DELETE [Param "id"] [Handle DeleteLead]
].

(** [routes/auth.js], in the order of the file *)
Definition authRoutes : list layer := [
  route POST [Lit "register"] [Validate "validateRegistration"; Handle Register];
  route POST [Lit "login"] [Validate "validateLogin"; Handle Login];
  route POST [Lit "logout"] [Handle Logout];
  route GET [Lit "me"] [Protect; Handle Me]
].

(** What happened to a request inside a router. *)
Inductive event :=
| GuardPassed
| GuardRejected (res : response)
| Ran (h : handler).

Definition lead_handler (h : handler) : bool :=
  match h with
  | StatsOverview | ListLeads | GetLead | CreateLead | UpdateLead | DeleteLead => true
  | _ => false
  end.

Section Routing.
Context `{Backend}.

(** The stack of one layer: the guard either calls [next()] or ends the
    request, a validator chain always calls [next()], a handler ends the
    request, by a response or by [next(error)]. The flag tells whether the
    last middleware called [next()]. *)
Fixpoint run_stack (stack : list middleware) (req : request) (st : store)
    : list event * bool :=
  match stack with
  | [] => ([], true)
  | Protect :: rest =>
      match protect req st with
      | Pass _ => let '(events, continue) := run_stack rest req st in
                  (GuardPassed :: events, continue)
      | Reject res => ([GuardRejected res], false)
      end
  | Validate _ :: rest => run_stack rest req st
  | Handle h :: _ => ([Ran h], false)
  end.

Fixpoint dispatch (layers : list layer) (req : request) (st : store) : list event :=
  match layers with
  | [] => []
  | l :: rest =>
      if layer_matches l req then
        let '(events, continue) := run_stack (layer_stack l) req st in
        if continue then events ++ dispatch rest req st else events
      else dispatch rest req st
  end.

Definition with_path (req : request) (path : list string) : request :=
  {| req_method := req_method req;
     req_path := path;
     cookies_token := cookies_token req;
     authorization := authorization req;
     query_page := query_page req;
     query_limit := query_limit req;
     query_search := query_search req;
     query_sortBy := query_sortBy req;
     query_sortOrder := query_sortOrder req;
     query_filters := query_filters req;
     body := body req;
     validation_errors := validation_errors req |}.

(** [app.use('/api/auth', authRoutes); app.use('/api/leads', leadRoutes)]
    of [server.js], on the full path of the request. *)
Definition app (req : request) (st : store) : list event :=
  match req_path req with
  | api :: mount :: rest =>
      if String.eqb (lower api) "api" && String.eqb (lower mount) "auth"
      then dispatch authRoutes (with_path req rest) st
      else if String.eqb (lower api) "api" && String.eqb (lower mount) "leads"
      then dispatch leadRoutes (with_path req rest) st
      else []
  | _ => []
  end.

End Routing.

(** ** What the aggregates are measured against *)

Definition score_of (d : gmap string bson) : Q :=
  match d !! "score" with
  | Some (BNum n) => n
  | _ => 0%Q
  end.

Definition mean (l : list Q) : Q :=
  (Qsum l / inject_Z (Z.of_nat (length l)))%Q.

Definition avgScore_of_response (res : response) : Q :=
  match res with
  | Json _ (StatsBody s) => avgScore s
  | _ => 0%Q
  end.

(** The count a grouping reports for a key, 0 when the key has no group. *)
Definition count_for (k : bson) (groups : list (bson * nat)) : nat :=
  match List.find (fun g => bson_eqb k (fst g)) groups with
  | Some (_, n) => n
  | None => 0%nat
  end.

Definition group_total (groups : list (bson * nat)) : nat :=
  foldr (fun g n => (snd g + n)%nat) 0%nat groups.

(** ** Sample data for the closed examples *)

Definition sample_user : gmap string bson :=
  list_to_map [("_id", BId "u1"); ("firstName", BStr "Test"); ("lastName", BStr "User");
               ("email", BStr "test@leadmanager.com"); ("password", BStr "hash:password123")].

Definition sample_lead (id status : string) (score created : Z) : gmap string bson :=
  list_to_map [("_id", BId id); ("firstName", BStr "John"); ("lastName", BStr "Smith");
               ("email", BStr "john.smith@example.com"); ("phone", BStr "+15550100");
               ("company", BStr "TechCorp Inc"); ("city", BStr "Austin"); ("state", BStr "TX");
               ("source", BStr "website"); ("status", BStr status);
               ("score", BNum (inject_Z score)); ("leadValue", BNum 1000);
               ("isQualified", BBool false); ("createdBy", BId "u1");
               ("createdAt", BDate created); ("updatedAt", BDate created)].

(** Ten leads: four won, three lost, three new. *)
Definition ten_leads : store := {|
  leads := [sample_lead "l1" "won" 80 1000; sample_lead "l2" "lost" 10 2000;
            sample_lead "l3" "new" 50 3000; sample_lead "l4" "won" 90 4000;
            sample_lead "l5" "lost" 20 5000; sample_lead "l6" "new" 40 6000;
            sample_lead "l7" "won" 70 7000; sample_lead "l8" "lost" 30 8000;
            sample_lead "l9" "new" 60 9000; sample_lead "l10" "won" 100 10000];
  users := [sample_user]
|}.

Definition plain_request (m : method) (path : list string) : request := {|
  req_method := m;
  req_path := path;
  cookies_token := None;
  authorization := None;
  query_page := None;
  query_limit := None;
  query_search := None;
  query_sortBy := None;
  query_sortOrder := None;
  query_filters := None;
  body := JObj [];
  validation_errors := []
|}.

(** [GET /leads?filters=...] with
    [{ status: { operator: "in", value: ["won", "lost"] } }], the filters
    arriving as a parsed object. *)
Definition won_or_lost : request := {|
  req_method := GET;
  req_path := [];
  cookies_token := None;
  authorization := None;
  query_page := None;
  query_limit := None;
  query_search := None;
  query_sortBy := None;
  query_sortOrder := None;
  query_filters := Some (JObj [("status", entry (JStr "in") (JArr [JStr "won"; JStr "lost"]))]);
  body := JObj [];
  validation_errors := []
|}.

(** [PUT /leads/l3] with a body that, besides the fields of a lead, carries
    [createdAt] and [createdBy]. *)
Definition put_with_creation_fields : request := {|
  req_method := PUT;
  req_path := ["l3"];
  cookies_token := None;
  authorization := None;
  query_page := None;
  query_limit := None;
  query_search := None;
  query_sortBy := None;
  query_sortOrder := None;
  query_filters := None;
  body := JObj [("firstName", JStr "Jane"); ("lastName", JStr "Brown");
                ("email", JStr "jane.brown@example.com"); ("phone", JStr "+15550111");
                ("company", JStr "CloudNext"); ("city", JStr "Denver"); ("state", JStr "CO");
                ("source", JStr "referral"); ("status", JStr "qualified");
                ("score", JNum 75); ("leadValue", JNum 2500);
                ("createdAt", JNum 1); ("createdBy", JStr "u9")];
  validation_errors := []
|}.

(** A backend for the closed examples: four tokens are known, users are
    looked up in the store, a new user is appended to it, and the stored
    password is the clear one behind a prefix. *)
Definition sample_verify (token : json) : completion json :=
  match token with
  | JStr t =>
      if String.eqb t "token-u1" then Return (JObj [("id", JStr "u1")])
      else if String.eqb t "token-u0" then Return (JObj [("id", JStr "u0")])
      else if String.eqb t "token-old" then Throw TokenExpiredError
      else if String.eqb t "token-early" then Throw NotBeforeError
      else Throw JsonWebTokenError
  | _ => Throw JsonWebTokenError
  end.

Definition sample_findById (st : store) (id : option json)
    : completion (option (gmap string bson)) :=
  match id with
  | Some (JStr i) => Return (find_by_id i (users st))
  | Some _ => Throw CastError
  | None => Return None
  end.

Definition sample_findOne (st : store) (email : option json)
    : completion (option (gmap string bson)) :=
  match email with
  | Some (JStr e) =>
      Return (List.find (fun u => bson_eqb (field_or_null u "email") (BStr e)) (users st))
  | _ => Return None
  end.

Definition sample_save (st : store) (firstName lastName email password : option json)
    : completion (gmap string bson * store) :=
  match firstName, lastName, email, password with
  | Some (JStr f), Some (JStr l), Some (JStr e), Some (JStr p) =>
      let user : gmap string bson :=
        list_to_map [("_id", BId ("u" +:+ index_key (S (length (users st)))));
                     ("firstName", BStr f); ("lastName", BStr l); ("email", BStr e);
                     ("password", BStr ("hash:" +:+ p))] in
      Return (user, {| leads := leads st; users := users st ++ [user] |})
  | _, _, _, _ => Throw ValidationError
  end.

Definition sample_compare (user : gmap string bson) (password : option json)
    : completion bool :=
  match password with
  | Some (JStr p) => Return (bson_eqb (field_or_null user "password") (BStr ("hash:" +:+ p)))
  | _ => Return false
  end.

#[local] Instance sample_backend : Backend := {|
  jwt_encode t :=
    match js_get (tok_payload t) "id" with
    | Some (JStr id) => Return ("token-" +:+ id)
    | _ => Return "token"
    end;
  jwt_verify := sample_verify;
  User_findById := sample_findById;
  User_findOne := sample_findOne;
  User_save := sample_save;
  comparePassword := sample_compare
|}.

(** The same backend in a process that has no secret: signing throws. *)
Definition secretless_backend : Backend := {|
  jwt_encode _ := Throw (OtherError "Error");
  jwt_verify := sample_verify;
  User_findById := sample_findById;
  User_findOne := sample_findOne;
  User_save := sample_save;
  comparePassword := sample_compare
|}.

Definition with_tokens (req : request) (cookie : option json) (header : option string)
    : request := {|
  req_method := req_method req;
  req_path := req_path req;
  cookies_token := cookie;
  authorization := header;
  query_page := query_page req;
  query_limit := query_limit req;
  query_search := query_search req;
  query_sortBy := query_sortBy req;
  query_sortOrder := query_sortOrder req;
  query_filters := query_filters req;
  body := body req;
  validation_errors := validation_errors req
|}.

Definition with_body (req : request) (b : json) : request := {|
  req_method := req_method req;
  req_path := req_path req;
  cookies_token := cookies_token req;
  authorization := authorization req;
  query_page := query_page req;
  query_limit := query_limit req;
  query_search := query_search req;
  query_sortBy := query_sortBy req;
  query_sortOrder := query_sortOrder req;
  query_filters := query_filters req;
  body := b;
  validation_errors := validation_errors req
|}.

Definition register_request : request :=
  with_body (plain_request POST ["register"])
    (JObj [("firstName", JStr "A"); ("lastName", JStr "B");
           ("email", JStr "a@b.com"); ("password", JStr "secret1")]).

Definition login_request : request :=
  with_body (plain_request POST ["login"])
    (JObj [("email", JStr "test@leadmanager.com"); ("password", JStr "password123")]).


Definition entry2 (operator value value2 : json) : json :=
  JObj [("operator", operator); ("value", value); ("value2", value2)].

(** ** Helpers of the further properties *)

Section EntryCondition.
Context `{JsRuntime}.

(** The condition an entry, compiled alone, puts under its key. *)
Definition condition_of (key : string) (filter : json) : option qvalue :=
  match filter_entry key (Some filter) ∅ with
  | Return delta => delta !! key
  | Throw _ => None
  end.

End EntryCondition.

(** A list request with the given query parameters and validation outcome. *)
Definition list_request (page limit search : option string) (filters : option json)
    (errors : list string) : request := {|
  req_method := GET;
  req_path := [];
  cookies_token := None;
  authorization := None;
  query_page := page;
  query_limit := limit;
  query_search := search;
  query_sortBy := None;
  query_sortOrder := None;
  query_filters := filters;
  body := JObj [];
  validation_errors := errors
|}.

(** No space in a text. *)
Fixpoint no_space (s : string) : bool :=
  match s with
  | EmptyString => true
  | String c rest => negb (Ascii.eqb c " ") && no_space rest
  end.

(** A value of the data of a new lead: JSON as it came in the body, a Date,
    or the id of the user the guard attached to the request. *)
Inductive lvalue :=
| LJson (v : json)
| LDate (t : option Z)
| LId (id : option bson).

Section CreateData.
Context `{JsRuntime}.

(** The custom validator of [lastActivityAt] in [validateLead]: [true], or
    the Error it throws. *)
Definition lastActivityAt_custom (value : option json) : completion bool :=
  if negb (truthy value)
     || match value with Some JNull => true | _ => false end
     || is_str value ""
  then Return true
  else
    match value with
    | Some v =>
        date ← Date_new v;
        match date with
        | None => Throw (OtherError "Error")
        | Some _ => Return true
        end
    | None => Return true
    end.

(** The [leadData] of [router.post('/')]:
    [{ ...req.body, createdBy: req.user._id }], then [lastActivityAt]
    replaced by a Date when the body carries a truthy one. *)
Definition leadData_of (req : request) (user : gmap string bson)
    : completion (list (string * lvalue)) :=
  let leadData :=
    assoc_set "createdBy" (LId (user !! "_id"))
      match own_props (body req) with
      | Return props => map (fun p => (fst p, LJson (snd p))) props
      | Throw _ => []
      end in
  match body req with
  | JNull => Throw TypeError
  | _ =>
      match js_get (body req) "lastActivityAt" with
      | Some v =>
          if truthy (Some v)
          then d ← Date_new v; Return (assoc_set "lastActivityAt" (LDate d) leadData)
          else Return leadData
      | None => Return leadData
      end
  end.

End CreateData.

(** * Properties *)

Section FilterCompilerFacts.
Context `{JsRuntime}.

Lemma bind_Return {A B} (c : completion A) (a : A) (f : A -> completion B) :
  c = Return a -> (c ≫= f) = f a.
Proof. intros ->. reflexivity. Qed.

Lemma filter_entry_malformed key filter query :
  malformed key filter -> filter_entry key filter query = Return query.
Proof.
  unfold malformed, filter_entry.
  intros [Hm | [Hm | [Hm | [Hm | [Hm | Hm]]]]].
  - rewrite Hm. reflexivity.
  - destruct (String.eqb_spec (typeof filter) "object") as [E | E]; [contradiction |].
    rewrite orb_true_r. reflexivity.
  - rewrite Hm. destruct (negb (truthy filter) || _); reflexivity.
  - rewrite Hm. destruct (negb (truthy filter) || _); [reflexivity |].
    destruct (negb _); reflexivity.
  - unfold recognized, key_in in Hm. rewrite !existsb_app in Hm.
    do 4 (apply orb_false_elim in Hm; destruct Hm as [? Hm]).
    unfold key_in.
    destruct (negb (truthy filter) || _); [reflexivity |].
    destruct (negb _); [reflexivity |].
    destruct (prop filter "value"); [| reflexivity].
    repeat match goal with
           | E : existsb _ ?l = false |- context [existsb _ ?l] => rewrite E
           end.
    reflexivity.
  - destruct (negb (truthy filter) || _); [reflexivity |].
    destruct (negb _); [reflexivity |].
    destruct (prop filter "value"); [| reflexivity].
    unfold listed_operators in Hm.
    destruct (key_in key text_fields).
    { rewrite !Hm by (simpl; tauto). reflexivity. }
    destruct (key_in key enum_fields).
    { rewrite !Hm by (simpl; tauto). reflexivity. }
    destruct (key_in key numeric_fields).
    { rewrite !Hm by (simpl; tauto). destruct (prop filter "value2"); reflexivity. }
    destruct (key_in key temporal_fields).
    { rewrite !Hm by (simpl; tauto). cbn. destruct (prop filter "value2"); reflexivity. }
    destruct (key_in key boolean_fields).
    { rewrite !Hm by (simpl; tauto). reflexivity. }
    reflexivity.
Qed.

Lemma forEach_key_app keys1 keys2 props query :
  forEach_key (keys1 ++ keys2) props query
  = (forEach_key keys1 props query ≫= forEach_key keys2 props).
Proof.
  revert query. induction keys1 as [| key keys1 IH]; intros query; simpl.
  - reflexivity.
  - destruct (filter_entry key (assoc key props) query) as [q | e]; simpl.
    + apply IH.
    + reflexivity.
Qed.

Lemma forEach_key_ext keys props1 props2 query :
  (forall key, In key keys -> assoc key props1 = assoc key props2) ->
  forEach_key keys props1 query = forEach_key keys props2 query.
Proof.
  revert query. induction keys as [| key keys IH]; intros query Hext; simpl.
  - reflexivity.
  - rewrite (Hext key) by (left; reflexivity).
    destruct (filter_entry key (assoc key props2) query) as [q | e]; simpl.
    + apply IH. intros k Hk. apply Hext. right. exact Hk.
    + reflexivity.
Qed.

Lemma assoc_app_None {A} key (l1 l2 : list (string * A)) :
  ~ In key (map fst l1) -> assoc key (l1 ++ l2) = assoc key l2.
Proof.
  induction l1 as [| [k v] l1 IH]; simpl; intros Hn.
  - reflexivity.
  - destruct (String.eqb_spec k key) as [E | E].
    + exfalso. apply Hn. left. exact E.
    + apply IH. intros Hin. apply Hn. right. exact Hin.
Qed.

Lemma assoc_app_other {A} key k (v : A) (l1 l2 : list (string * A)) :
  k <> key -> assoc key (l1 ++ (k, v) :: l2) = assoc key (l1 ++ l2).
Proof.
  intros Hne. induction l1 as [| [k1 v1] l1 IH]; simpl.
  - destruct (String.eqb_spec k key); [contradiction | reflexivity].
  - destruct (String.eqb k1 key); [reflexivity | exact IH].
Qed.

(** Taking a malformed entry out of the mapping changes nothing of what
    the compiler does with it. *)
Lemma buildFilterQuery_drop before key filter after :
  ~ In key (map fst before) -> ~ In key (map fst after) ->
  malformed key (Some filter) ->
  buildFilterQuery (JObj (before ++ (key, filter) :: after))
  = buildFilterQuery (JObj (before ++ after)).
Proof.
  intros Hb Ha Hm. unfold buildFilterQuery. simpl.
  rewrite !map_app. simpl. rewrite !forEach_key_app.
  rewrite (forEach_key_ext (map fst before) _ (before ++ after)).
  2:{ intros k Hk. apply assoc_app_other. intros ->. contradiction. }
  destruct (forEach_key (map fst before) (before ++ after) ∅) as [q | e]; simpl.
  2: reflexivity.
  rewrite assoc_app_None by exact Hb. simpl. rewrite String.eqb_refl.
  rewrite (filter_entry_malformed _ _ _ Hm). simpl.
  apply forEach_key_ext. intros k Hk. apply assoc_app_other.
  intros ->. contradiction.
Qed.

Lemma Date_new_returns v : returns (ToString v) -> returns (Date_new v).
Proof.
  intros [s Hs]. unfold returns.
  destruct v; simpl; eauto; simpl in Hs; rewrite Hs; simpl; eauto.
Qed.

Lemma filter_entry_returns key filter query :
  converts key filter -> returns (filter_entry key filter query).
Proof.
  intros [Hstr Hre]. unfold filter_entry.
  destruct (negb (truthy filter) || _); [eexists; reflexivity |].
  destruct (negb _); [eexists; reflexivity |].
  destruct (prop filter "value") as [value |] eqn:Ev; [| eexists; reflexivity].
  assert (Hd : returns (Date_new value)).
  { apply Date_new_returns, Hstr. left. reflexivity. }
  destruct Hd as [d Hd].
  destruct (key_in key text_fields) eqn:Etext.
  { destruct (is_str (prop filter "operator") "contains") eqn:Ec;
      [| eexists; reflexivity].
    destruct (Hstr value (or_introl eq_refl)) as [p Hp].
    unfold RegExp_new. rewrite Hp. simpl.
    rewrite (Hre value p eq_refl eq_refl eq_refl Hp). eexists; reflexivity. }
  destruct (key_in key enum_fields); [eexists; reflexivity |].
  destruct (key_in key numeric_fields); [eexists; reflexivity |].
  destruct (key_in key temporal_fields).
  { rewrite Hd.
    destruct (prop filter "value2") as [v2 |] eqn:Ev2.
    - destruct (Date_new_returns v2 (Hstr v2 (or_intror eq_refl))) as [d2 Hd2].
      rewrite Hd2.
      destruct (is_str (prop filter "operator") "on"),
        (is_str (prop filter "operator") "before"),
        (is_str (prop filter "operator") "after"),
        (is_str (prop filter "operator") "between"); eexists; reflexivity.
    - destruct (is_str (prop filter "operator") "on"),
        (is_str (prop filter "operator") "before"),
        (is_str (prop filter "operator") "after"); eexists; reflexivity. }
  destruct (key_in key boolean_fields); eexists; reflexivity.
Qed.

Lemma forEach_key_returns keys props query :
  (forall key, In key keys -> converts key (assoc key props)) ->
  returns (forEach_key keys props query).
Proof.
  revert query. induction keys as [| key keys IH]; intros query Hc; simpl.
  - eexists; reflexivity.
  - destruct (filter_entry_returns key (assoc key props) query) as [q Hq].
    { apply Hc. left. reflexivity. }
    rewrite Hq. simpl. apply IH. intros k Hk. apply Hc. right. exact Hk.
Qed.

Lemma not_returns {A} (c : completion A) : ~ returns c <-> exists e, c = Throw e.
Proof.
  unfold returns. destruct c as [a | e]; split.
  - intros Hn. exfalso. apply Hn. exists a. reflexivity.
  - intros [e He]. discriminate He.
  - intros _. exists e. reflexivity.
  - intros _ [a Ha]. discriminate Ha.
Qed.

Lemma temporal_key key :
  key_in key temporal_fields = true -> key = "createdAt" \/ key = "lastActivityAt".
Proof.
  unfold key_in. simpl. intros Hk.
  destruct (String.eqb_spec key "createdAt"); [left; assumption |].
  destruct (String.eqb_spec key "lastActivityAt"); [right; assumption |].
  discriminate.
Qed.

(** An entry throws exactly when it reaches a conversion that throws,
    whatever the query built so far. *)
Lemma filter_entry_throws_iff key filter query :
  (exists e, filter_entry key filter query = Throw e) <-> conversion_throws key filter.
Proof.
  unfold conversion_throws. split.
  - intros [e He]. unfold filter_entry in He.
    destruct (truthy filter) eqn:Et; cbn [negb orb] in He; [| discriminate He].
    destruct (String.eqb_spec (typeof filter) "object") as [Eo | Eo];
      cbn [negb orb] in He; [| discriminate He].
    destruct (truthy (prop filter "operator")) eqn:Eop; cbn [negb orb] in He; [| discriminate He].
    destruct (prop filter "value") as [value |] eqn:Ev; [| discriminate He].
    cbv zeta in He.
    do 3 (split; [reflexivity || assumption |]).
    exists value. split; [reflexivity |].
    destruct (key_in key text_fields) eqn:Etext.
    { left. split; [reflexivity |].
      destruct (is_str (prop filter "operator") "contains"); [| discriminate He].
      split; [reflexivity |].
      intros [re Hre]. rewrite Hre in He. discriminate He. }
    destruct (key_in key enum_fields); [discriminate He |].
    destruct (key_in key numeric_fields); [discriminate He |].
    destruct (key_in key temporal_fields);
      [| destruct (key_in key boolean_fields); discriminate He].
    right. split; [reflexivity |].
    destruct (Date_new value) as [d | e1] eqn:Ed.
    + right.
      destruct (prop filter "value2") as [v2 |];
        [| destruct (is_str (prop filter "operator") "on"),
             (is_str (prop filter "operator") "before"),
             (is_str (prop filter "operator") "after"); discriminate He].
      destruct (is_str (prop filter "operator") "between");
        [| destruct (is_str (prop filter "operator") "on"),
             (is_str (prop filter "operator") "before"),
             (is_str (prop filter "operator") "after"); discriminate He].
      split; [reflexivity |]. exists v2. split; [reflexivity |]. right.
      intros [d2 Hd2]. rewrite Hd2 in He.
      destruct (is_str (prop filter "operator") "on"),
        (is_str (prop filter "operator") "before"),
        (is_str (prop filter "operator") "after"); discriminate He.
    + assert (Hn : ~ returns (Throw (A := option Z) e1)).
      { intros [d Hd]. discriminate Hd. }
      destruct (is_str (prop filter "operator") "on") eqn:Eon;
        [left; split; [left; reflexivity | exact Hn] |].
      destruct (is_str (prop filter "operator") "before") eqn:Eb;
        [left; split; [right; left; reflexivity | exact Hn] |].
      destruct (is_str (prop filter "operator") "after") eqn:Ea;
        [left; split; [right; right; reflexivity | exact Hn] |].
      right.
      destruct (prop filter "value2") as [v2 |]; [| discriminate He].
      destruct (is_str (prop filter "operator") "between"); [| discriminate He].
      split; [reflexivity |]. exists v2. split; [reflexivity |]. left. exact Hn.
  - intros (Ht & Ho & Hop & value & Hv & Hcase). unfold filter_entry.
    rewrite Ht, Ho, Hop, Hv, String.eqb_refl. cbn [negb orb].
    destruct Hcase as [(Hk & Hc & Hn) | (Hk & Hcase)].
    + rewrite Hk, Hc. apply not_returns in Hn as [e He]. rewrite He.
      eexists; reflexivity.
    + assert (Hother : key_in key text_fields = false
                       /\ key_in key enum_fields = false
                       /\ key_in key numeric_fields = false).
      { destruct (temporal_key key Hk) as [-> | ->]; repeat split; reflexivity. }
      destruct Hother as (-> & -> & ->). rewrite Hk.
      destruct Hcase as [(Hops & Hn) | (Hb & v2 & Hv2 & Hn)].
      * apply not_returns in Hn as [e He]. rewrite He.
        destruct (is_str (prop filter "operator") "on");
          [eexists; reflexivity |].
        destruct (is_str (prop filter "operator") "before");
          [eexists; reflexivity |].
        destruct (is_str (prop filter "operator") "after");
          [eexists; reflexivity |].
        destruct Hops as [Hf | [Hf | Hf]]; discriminate Hf.
      * rewrite Hv2, Hb.
        destruct (Date_new value) as [d | e] eqn:Ed.
        -- destruct Hn as [Hn | Hn]; [exfalso; apply Hn; eexists; reflexivity |].
           apply not_returns in Hn as [e He]. rewrite He.
           destruct (is_str (prop filter "operator") "on"),
             (is_str (prop filter "operator") "before"),
             (is_str (prop filter "operator") "after"); eexists; reflexivity.
        -- destruct (is_str (prop filter "operator") "on"),
             (is_str (prop filter "operator") "before"),
             (is_str (prop filter "operator") "after"); eexists; reflexivity.
Qed.

(** The loop returns exactly when no entry reaches a conversion that
    throws. *)
Lemma forEach_key_returns_iff keys props query :
  returns (forEach_key keys props query) <->
  (forall key, In key keys -> ~ conversion_throws key (assoc key props)).
Proof.
  revert query. induction keys as [| key keys IH]; intros query; simpl.
  - split; [intros _ key [] | intros _; eexists; reflexivity].
  - destruct (filter_entry key (assoc key props) query) as [q | e] eqn:Eq; simpl.
    + rewrite IH. split.
      * intros Hrest k [<- | Hk]; [| apply Hrest, Hk].
        intros Hthrows. apply (filter_entry_throws_iff _ _ query) in Hthrows as [e He].
        rewrite Eq in He. discriminate He.
      * intros Hall k Hk. apply Hall. right. exact Hk.
    + split.
      * intros [q Hq]. discriminate Hq.
      * intros Hall. exfalso. apply (Hall key (or_introl eq_refl)).
        apply (filter_entry_throws_iff _ _ query). exists e. exact Eq.
Qed.

End FilterCompilerFacts.

(** ** The filter compiler *)

Section FilterCompilerClaims.
Context `{JsRuntime}.

(** An object whose own [toString] is data has no string form, whatever
    the engine. *)
Lemma unprintable_value_throws key op :
  key_in key temporal_fields = true ->
  In op ["on"; "before"; "after"] ->
  buildFilterQuery
    (JObj [(key, entry (JStr op) (JObj [("toString", JNum 1)]))])
  = Throw TypeError.
Proof.
  intros Hk Hop.
  assert (Hkey : key = "createdAt" \/ key = "lastActivityAt").
  { unfold key_in in Hk. simpl in Hk.
    destruct (String.eqb_spec key "createdAt"); [left; assumption |].
    destruct (String.eqb_spec key "lastActivityAt"); [right; assumption |].
    discriminate. }
  simpl in Hop.
  destruct Hkey as [-> | ->], Hop as [<- | [<- | [<- | []]]]; reflexivity.
Qed.

(** A [contains] whose value the engine refuses as a pattern. *)
Lemma refused_pattern_throws key p :
  key_in key text_fields = true ->
  regexp_pattern_ok p = false ->
  buildFilterQuery (JObj [(key, entry (JStr "contains") (JStr p))])
  = Throw SyntaxError.
Proof.
  intros Hk Hp.
  assert (Hkey : In key text_fields).
  { unfold key_in in Hk. apply existsb_exists in Hk as [k [Hin Hk]].
    apply String.eqb_eq in Hk. subst k. exact Hin. }
  simpl in Hkey.
  destruct Hkey as [<- | [<- | [<- | [<- | []]]]];
    unfold buildFilterQuery; simpl; unfold filter_entry, RegExp_new; simpl;
    rewrite Hp; reflexivity.
Qed.

(** The inner [try] of the list handler: compiled filters that throw are
    answered 400. *)
Lemma list_leads_invalid_filters req st e :
  validation_errors req = [] ->
  list_filters req = Throw e ->
  list_leads req st = Json 400 (ErrorBody "Invalid filters format").
Proof.
  intros Hvalid Hthrow. unfold list_leads. rewrite Hvalid, Hthrow. reflexivity.
Qed.

(** C1, as the code has it. A malformed entry (not an object, without
    [operator] or [value], under an unknown field, or with an operator not
    listed for its field) raises no exception and leaves the query as it
    was; taking such an entry out of a mapping changes nothing of the
    result. The compiler is not total: an entry throws exactly when it
    reaches a conversion that throws ([new RegExp(value, 'i')] under
    [contains] on a text field; [new Date(value)] under [on], [before] or
    [after] on a temporal field; [new Date(value)] or [new Date(value2)]
    under a [between] with a [value2] on a temporal field), and compiling
    a mapping returns a query exactly when none of its entries does; in
    particular it returns when every [value] and [value2] has a string
    form and every [contains] value is a pattern the engine accepts. When
    the list handler is given filters, as an object or as a text that
    parses, whose compilation throws, it answers 400 "Invalid filters
    format". *)
Theorem filter_compiler_drops_malformed :
  (forall key filter query,
      malformed key filter -> filter_entry key filter query = Return query)
  /\ (forall before key filter after,
        ~ In key (map fst before) -> ~ In key (map fst after) ->
        malformed key (Some filter) ->
        buildFilterQuery (JObj (before ++ (key, filter) :: after))
        = buildFilterQuery (JObj (before ++ after)))
  /\ (forall key filter query,
        (exists e, filter_entry key filter query = Throw e)
        <-> conversion_throws key filter)
  /\ (forall props,
        returns (buildFilterQuery (JObj props))
        <-> (forall key, In key (map fst props) ->
                         ~ conversion_throws key (assoc key props)))
  /\ (forall props,
        (forall key, In key (map fst props) -> converts key (assoc key props)) ->
        returns (buildFilterQuery (JObj props)))
  /\ (forall req st filters e,
        validation_errors req = [] ->
        (query_filters req = Some filters /\ truthy (Some filters) = true
         /\ forall text, filters <> JStr text)
        \/ (exists text, query_filters req = Some (JStr text) /\ text <> ""
                         /\ JSON_parse text = Some filters) ->
        buildFilterQuery filters = Throw e ->
        list_leads req st = Json 400 (ErrorBody "Invalid filters format")).
Proof.
  split; [| split; [| split; [| split; [| split]]]].
  - intros key filter query Hm. apply filter_entry_malformed. exact Hm.
  - intros before key filter after Hb Ha Hm.
    apply buildFilterQuery_drop; assumption.
  - intros key filter query. apply filter_entry_throws_iff.
  - intros props. unfold buildFilterQuery. simpl.
    apply forEach_key_returns_iff.
  - intros props Hc. unfold buildFilterQuery. simpl.
    apply forEach_key_returns. exact Hc.
  - intros req st filters e Hvalid Hfilters Hthrow.
    apply (list_leads_invalid_filters req st e Hvalid).
    unfold list_filters.
    destruct Hfilters as [(Hf & Htruthy & Hnot) | (text & Hf & Htext & Hparse)].
    + rewrite Hf, Htruthy.
      destruct filters; try exact Hthrow. exfalso. eapply Hnot. reflexivity.
    + rewrite Hf. simpl.
      destruct (String.eqb_spec text ""); [contradiction |]. simpl.
      rewrite Hparse. exact Hthrow.
Qed.

Lemma range_matches lo hi t :
  cond_matches (QObj [("$gte", QDate (Some lo)); ("$lt", QDate (Some hi))])
    (Some (BDate t)) = true <-> lo <= t < hi.
Proof.
  simpl. unfold op_matches. simpl.
  rewrite !andb_true_iff, orb_true_iff, Z.eqb_eq, !Z.ltb_lt. lia.
Qed.

Lemma before_matches hi t :
  cond_matches (QObj [("$lt", QDate (Some hi))]) (Some (BDate t)) = true <-> t < hi.
Proof. simpl. unfold op_matches. simpl. rewrite andb_true_iff, Z.ltb_lt. tauto. Qed.

Lemma after_matches lo t :
  cond_matches (QObj [("$gt", QDate (Some lo))]) (Some (BDate t)) = true <-> lo < t.
Proof. simpl. unfold op_matches. simpl. rewrite andb_true_iff, Z.ltb_lt. tauto. Qed.

Lemma between_matches lo hi t :
  cond_matches (QObj [("$gte", QDate (Some lo)); ("$lte", QDate (Some hi))])
    (Some (BDate t)) = true <-> lo <= t <= hi.
Proof.
  simpl. unfold op_matches. simpl.
  rewrite !andb_true_iff, !orb_true_iff, !Z.eqb_eq, !Z.ltb_lt. lia.
Qed.

Lemma invalid_bound_matches_nothing lo fv :
  cond_matches (QObj [("$gte", QDate (Some lo)); ("$lt", QDate None)]) fv = false.
Proof.
  simpl. unfold op_matches. simpl. rewrite andb_false_r. reflexivity.
Qed.

(** C7, as the code has it. On a temporal field, with [value] a valid
    date [d]: [on] compiles to the condition [{ $gte: d, $lt: d + 24h }];
    when [d + 24h] is itself a valid date, that is, at most 8.64e15 ms in
    absolute value, the condition holds of a stored date [t] exactly when
    [d <= t < d + 24h]; when it is not, the upper bound is an Invalid
    Date, which the cast of the query refuses, and the condition holds
    of no stored value. [before] holds
    exactly when [t < d]; [after] exactly when [d < t]; [between], with
    [value2] a valid date [d2], exactly when [d <= t <= d2]; and
    [between] without [value2] adds no condition. *)
Theorem temporal_predicates key filter value d query :
  key_in key temporal_fields = true ->
  js_get filter "value" = Some value ->
  Date_new value = Return (Some d) ->
  (js_get filter "operator" = Some (JStr "on") ->
   exists c, filter_entry key (Some filter) query = Return (<[key := c]> query)
             /\ (Z.abs (d + msPerDay) <= maxTime ->
                 forall t, cond_matches c (Some (BDate t)) = true
                           <-> d <= t < d + msPerDay)
             /\ (maxTime < Z.abs (d + msPerDay) ->
                 c = QObj [("$gte", QDate (Some d)); ("$lt", QDate None)]
                 /\ has_invalid_date c = true
                 /\ forall fv, cond_matches c fv = false))
  /\ (js_get filter "operator" = Some (JStr "before") ->
      exists c, filter_entry key (Some filter) query = Return (<[key := c]> query)
                /\ forall t, cond_matches c (Some (BDate t)) = true <-> t < d)
  /\ (js_get filter "operator" = Some (JStr "after") ->
      exists c, filter_entry key (Some filter) query = Return (<[key := c]> query)
                /\ forall t, cond_matches c (Some (BDate t)) = true <-> d < t)
  /\ (js_get filter "operator" = Some (JStr "between") ->
      forall v2 d2, js_get filter "value2" = Some v2 ->
                    Date_new v2 = Return (Some d2) ->
      exists c, filter_entry key (Some filter) query = Return (<[key := c]> query)
                /\ forall t, cond_matches c (Some (BDate t)) = true <-> d <= t <= d2)
  /\ (js_get filter "operator" = Some (JStr "between") ->
      js_get filter "value2" = None ->
      filter_entry key (Some filter) query = Return query).
Proof.
  intros Hk Hv Hd.
  destruct filter as [| | | | | props]; try discriminate Hv.
  apply temporal_key in Hk.
  split; [| repeat split].
  - intros Hop.
    exists (QObj [("$gte", QDate (Some d));
                  ("$lt", QDate (Date_of_time (Some (d + msPerDay))))]).
    split; [| split].
    + unfold filter_entry, prop. rewrite Hop, Hv.
      destruct Hk as [-> | ->]; simpl; rewrite Hd; simpl;
        destruct (assoc "value2" props); reflexivity.
    + intros Hday t. unfold Date_of_time.
      destruct (Z.abs (d + msPerDay) <=? maxTime) eqn:E;
        [| apply Z.leb_gt in E; lia].
      apply range_matches.
    + intros Hday. unfold Date_of_time.
      destruct (Z.abs (d + msPerDay) <=? maxTime) eqn:E;
        [apply Z.leb_le in E; lia |].
      split; [reflexivity |].
      split; [reflexivity | intros fv; apply invalid_bound_matches_nothing].
  - intros Hop.
    exists (QObj [("$lt", QDate (Some d))]).
    split; [| intros t; apply before_matches].
    unfold filter_entry, prop. rewrite Hop, Hv.
    destruct Hk as [-> | ->]; simpl; rewrite Hd; simpl;
      destruct (assoc "value2" props); reflexivity.
  - intros Hop.
    exists (QObj [("$gt", QDate (Some d))]).
    split; [| intros t; apply after_matches].
    unfold filter_entry, prop. rewrite Hop, Hv.
    destruct Hk as [-> | ->]; simpl; rewrite Hd; simpl;
      destruct (assoc "value2" props); reflexivity.
  - intros Hop v2 d2 Hv2 Hd2.
    exists (QObj [("$gte", QDate (Some d)); ("$lte", QDate (Some d2))]).
    split; [| intros t; apply between_matches].
    unfold filter_entry, prop. rewrite Hop, Hv, Hv2.
    destruct Hk as [-> | ->]; simpl; rewrite Hd, Hd2; reflexivity.
  - intros Hop Hv2.
    unfold filter_entry, prop. rewrite Hop, Hv, Hv2.
    destruct Hk as [-> | ->]; reflexivity.
Qed.

Lemma key_in_In key names : key_in key names = true -> In key names.
Proof.
  unfold key_in. intros Hk. apply existsb_exists in Hk as [k [Hin Hk]].
  apply String.eqb_eq in Hk. subst k. exact Hin.
Qed.



End FilterCompilerClaims.

(** C1 fails as stated: a well-formed entry can make the compiler throw.
    [new Date] of an object whose own [toString] is data is a TypeError, and
    [new RegExp] of a lone opening parenthesis is a SyntaxError. *)
Lemma filter_compiler_throws :
  buildFilterQuery
    (JObj [("createdAt", entry (JStr "on") (JObj [("toString", JNum 1)]))])
  = Throw TypeError
  /\ buildFilterQuery (JObj [("email", entry (JStr "contains") (JStr "("))])
     = Throw SyntaxError.
Proof. split; reflexivity. Qed.

Lemma filter_compiler_drops_malformed_witness :
  filter_entry "email" (Some (JStr "won")) ∅ = Return ∅
  /\ buildFilterQuery
       (JObj ([] ++ ("colour", entry (JStr "equals") (JStr "red"))
                 :: [("status", entry (JStr "equals") (JStr "won"))]))
     = buildFilterQuery (JObj ([] ++ [("status", entry (JStr "equals") (JStr "won"))]))
  /\ (exists e, filter_entry "email" (Some (entry (JStr "contains") (JStr "("))) ∅
                = Throw e)
  /\ returns (buildFilterQuery (JObj [("createdAt", entry (JStr "on") (JNum 1000))]))
  /\ returns (buildFilterQuery (JObj [("status", entry (JStr "equals") (JStr "won"))]))
  /\ list_leads
       (list_request None None None
          (Some (JObj [("email", entry (JStr "contains") (JStr "("))])) [])
       {| leads := []; users := [] |}
     = Json 400 (ErrorBody "Invalid filters format").
Proof.
  destruct (@filter_compiler_drops_malformed sample_runtime)
    as [Hentry [Hdrop [Hthrows [Hexact [Htotal Hlist]]]]].
  refine (conj _ (conj _ (conj _ (conj _ (conj _ _))))).
  - apply Hentry. right. left. simpl. discriminate.
  - apply Hdrop.
    + simpl. intros [].
    + simpl. intros [Heq | []]. discriminate Heq.
    + right. right. right. right. left. reflexivity.
  - apply Hthrows. unfold conversion_throws.
    refine (conj eq_refl (conj eq_refl (conj eq_refl _))).
    exists (JStr "("). split; [reflexivity |]. left.
    refine (conj eq_refl (conj eq_refl _)).
    intros [re Hre]. discriminate Hre.
  - apply Hexact. intros key [<- | []] (_ & _ & _ & value & Hv & Hcase).
    injection Hv as <-.
    destruct Hcase as [(Hk & _) | (_ & [(_ & Hn) | (Hb & _)])].
    + discriminate Hk.
    + apply Hn. eexists. reflexivity.
    + discriminate Hb.
  - apply Htotal. intros key [<- | []]. split.
    + intros v [Hv | Hv]; simpl in Hv; [| discriminate Hv].
      injection Hv as <-. exists "won". reflexivity.
    + intros v p Hk. discriminate Hk.
  - apply (Hlist _ _ (JObj [("email", entry (JStr "contains") (JStr "("))]) SyntaxError).
    + reflexivity.
    + left. refine (conj eq_refl (conj eq_refl _)). intros text Heq. discriminate Heq.
    + reflexivity.
Defined.

(** C7 fails as stated: [on] with the last instant a Date can hold
    compiles to a range whose upper bound is an Invalid Date, which does not
    hold of that instant although it lies in [date, date+24h). *)
Lemma on_in_the_last_day :
  Date_new (JNum (inject_Z maxTime)) = Return (Some maxTime)
  /\ filter_entry "createdAt" (Some (entry (JStr "on") (JNum (inject_Z maxTime)))) ∅
     = Return {[ "createdAt" := QObj [("$gte", QDate (Some maxTime)); ("$lt", QDate None)] ]}
  /\ cond_matches (QObj [("$gte", QDate (Some maxTime)); ("$lt", QDate None)])
       (Some (BDate maxTime)) = false
  /\ maxTime <= maxTime < maxTime + msPerDay.
Proof.
  refine (conj _ (conj _ (conj _ _))).
  - vm_compute. reflexivity.
  - vm_compute. reflexivity.
  - vm_compute. reflexivity.
  - vm_compute. split; [discriminate | reflexivity].
Qed.

Lemma temporal_predicates_witness :
  (exists c, filter_entry "createdAt" (Some (entry (JStr "on") (JNum 1000))) ∅
             = Return (<["createdAt" := c]> ∅)
             /\ forall t, cond_matches c (Some (BDate t)) = true <-> 1000 <= t < 1000 + msPerDay)
  /\ (exists c, filter_entry "createdAt" (Some (entry (JStr "on") (JNum (inject_Z maxTime)))) ∅
                = Return (<["createdAt" := c]> ∅)
                /\ has_invalid_date c = true
                /\ forall fv, cond_matches c fv = false)
  /\ (exists c, filter_entry "createdAt" (Some (entry (JStr "before") (JNum 1000))) ∅
                = Return (<["createdAt" := c]> ∅)
                /\ forall t, cond_matches c (Some (BDate t)) = true <-> t < 1000)
  /\ (exists c, filter_entry "lastActivityAt" (Some (entry (JStr "after") (JNum 1000))) ∅
                = Return (<["lastActivityAt" := c]> ∅)
                /\ forall t, cond_matches c (Some (BDate t)) = true <-> 1000 < t)
  /\ (exists c, filter_entry "createdAt"
                  (Some (entry2 (JStr "between") (JNum 1000) (JNum 2000))) ∅
                = Return (<["createdAt" := c]> ∅)
                /\ forall t, cond_matches c (Some (BDate t)) = true <-> 1000 <= t <= 2000)
  /\ filter_entry "createdAt" (Some (entry (JStr "between") (JNum 1000))) ∅ = Return ∅.
Proof.
  refine (conj _ (conj _ (conj _ (conj _ (conj _ _))))).
  - destruct (proj1 (@temporal_predicates sample_runtime "createdAt"
                       (entry (JStr "on") (JNum 1000)) (JNum 1000) 1000 ∅
                       eq_refl eq_refl eq_refl) eq_refl)
      as (c & Hc & Hin & _).
    exists c. split; [exact Hc |]. apply Hin. vm_compute. discriminate.
  - destruct (proj1 (@temporal_predicates sample_runtime "createdAt"
                       (entry (JStr "on") (JNum (inject_Z maxTime))) (JNum (inject_Z maxTime)) maxTime ∅
                       eq_refl eq_refl eq_refl) eq_refl)
      as (c & Hc & _ & Hout).
    exists c. split; [exact Hc |].
    apply (fun H => proj2 (Hout H)). vm_compute. reflexivity.
  - apply (proj1 (proj2 (@temporal_predicates sample_runtime "createdAt"
                           (entry (JStr "before") (JNum 1000)) (JNum 1000) 1000 ∅
                           eq_refl eq_refl eq_refl))).
    reflexivity.
  - apply (proj1 (proj2 (proj2 (@temporal_predicates sample_runtime "lastActivityAt"
                                  (entry (JStr "after") (JNum 1000)) (JNum 1000) 1000 ∅
                                  eq_refl eq_refl eq_refl)))).
    reflexivity.
  - apply (proj1 (proj2 (proj2 (proj2
             (@temporal_predicates sample_runtime "createdAt"
                (entry2 (JStr "between") (JNum 1000) (JNum 2000)) (JNum 1000) 1000 ∅
                eq_refl eq_refl eq_refl))))
             eq_refl (JNum 2000) 2000); reflexivity.
  - apply (proj2 (proj2 (proj2 (proj2
             (@temporal_predicates sample_runtime "createdAt"
                (entry (JStr "between") (JNum 1000)) (JNum 1000) 1000 ∅
                eq_refl eq_refl eq_refl))))); reflexivity.
Defined.



(** ** Pagination *)

Lemma Math_ceil_div_spec total limit :
  0 < limit ->
  (Math_ceil_div total limit - 1) * limit < total <= Math_ceil_div total limit * limit.
Proof.
  intros Hl. unfold Math_ceil_div.
  pose proof (Z.div_mod (- total) limit ltac:(lia)) as Hdm.
  pose proof (Z.mod_pos_bound (- total) limit Hl) as Hb.
  nia.
Qed.



Section ListClaims.
Context `{JsRuntime}.

Lemma skip_docs_drop {A} n (docs : list A) :
  0 <= n -> skip_docs n docs = drop (Z.to_nat n) docs.
Proof.
  intros Hn. unfold skip_docs.
  destruct (Z.leb_spec (Z.of_nat (length docs)) n); [| reflexivity].
  symmetry. apply drop_ge. lia.
Qed.

Lemma limit_docs_take {A} n (docs : list A) :
  limit_docs n docs = take (Z.to_nat n) docs.
Proof.
  unfold limit_docs.
  destruct (Z.leb_spec (Z.of_nat (length docs)) n); [| reflexivity].
  symmetry. apply take_ge. lia.
Qed.

Lemma Lead_find_returns st query sortBy sortOrder skip limit docs :
  Lead_find st query sortBy sortOrder skip limit = Return docs ->
  exists s l,
    skip = Some (Finite s) /\ limit = Finite l
    /\ 0 <= s <= maxInt64 /\ Z.abs l <= maxInt64
    /\ docs = take (Z.to_nat (Z.abs l))
                (drop (Z.to_nat s)
                   (sort_docs sortBy sortOrder
                      (List.filter (doc_matches query) (leads st)))).
Proof.
  unfold Lead_find. intros Hfind.
  destruct (query_castable query); [| discriminate Hfind].
  destruct skip as [[s | ?] |]; try discriminate Hfind.
  destruct limit as [l | ?]; try discriminate Hfind.
  destruct (0 <=? s) eqn:E0; [| discriminate Hfind].
  destruct (s <=? maxInt64) eqn:E1; [| discriminate Hfind].
  destruct (Z.abs l <=? maxInt64) eqn:E2; [| discriminate Hfind].
  simpl in Hfind. injection Hfind as <-.
  apply Z.leb_le in E0, E1, E2.
  rewrite (skip_docs_drop s _ E0), limit_docs_take.
  exists s, l. repeat split; assumption || reflexivity.
Qed.

Lemma number_mul_finite x y s :
  number_mul (number_pred x) y = Some (Finite s) ->
  x = Finite (finite_part x) /\ y = Finite (finite_part y)
  /\ s = (finite_part x - 1) * finite_part y.
Proof.
  destruct x as [a | ?], y as [b | ?]; simpl; intros Hmul.
  - injection Hmul as <-. repeat split.
  - destruct (a - 1 =? 0); discriminate Hmul.
  - destruct (b =? 0); discriminate Hmul.
  - discriminate Hmul.
Qed.

Lemma list_leads_ok req st found pg :
  list_leads req st = Json 200 (ListBody found pg) ->
  exists query,
    (list_filters req ≫= list_search req) = Return query
    /\ page_number req = Finite (list_page req)
    /\ limit_number req = Finite (list_limit req)
    /\ pg = mk_pagination (list_page req) (list_limit req)
              (Z.of_nat (length (List.filter (doc_matches query) (leads st)))).
Proof.
  unfold list_leads. intros Hres.
  destruct (validation_errors req); [| discriminate Hres].
  destruct (list_filters req) as [q0 | e]; [| discriminate Hres].
  simpl. destruct (list_search req q0) as [query | e]; [| discriminate Hres].
  simpl in Hres. exists query. split; [reflexivity |].
  destruct (Lead_find st query _ _ _ _) as [docs | e] eqn:Efind; [| discriminate Hres].
  apply Lead_find_returns in Efind as (s & l & Hskip & Hl & _).
  apply number_mul_finite in Hskip as (Hpage & Hlimit & _).
  simpl in Hres. unfold Lead_countDocuments in Hres.
  destruct (query_castable query); [| discriminate Hres].
  simpl in Hres. injection Hres as _ Hpg.
  split; [exact Hpage |]. split; [exact Hlimit |].
  symmetry. exact Hpg.
Qed.




End ListClaims.


(** A digit string from 2^1024 on reads as an infinity, which the store
    takes for no page. *)
Lemma page_infinity_is_refused :
  parseInt (String.concat "" (repeat "9" 400)) = Some (Infinite false)
  /\ list_leads
       (list_request (Some (String.concat "" (repeat "9" 400))) None None None [])
       ten_leads
     = NextError (OtherError "MongoServerError").
Proof. split; vm_compute; reflexivity. Qed.

(** ** Statistics *)

Lemma bson_eqb_refl a : bson_eqb a a = true.
Proof.
  destruct a; simpl; auto using String.eqb_refl, Z.eqb_refl.
  - destruct b; reflexivity.
  - apply Qeq_bool_iff. reflexivity.
Qed.

Lemma bson_eqb_sym a b : bson_eqb a b = bson_eqb b a.
Proof.
  destruct a, b; simpl; auto using String.eqb_sym, Z.eqb_sym.
  - destruct b, b0; reflexivity.
  - destruct (Qeq_bool n n0) eqn:E1, (Qeq_bool n0 n) eqn:E2; try reflexivity.
    + apply Qeq_bool_iff in E1. symmetry in E1. apply Qeq_bool_iff in E1. congruence.
    + apply Qeq_bool_iff in E2. symmetry in E2. apply Qeq_bool_iff in E2. congruence.
Qed.

Lemma bson_eqb_trans a b c :
  bson_eqb a b = true -> bson_eqb b c = true -> bson_eqb a c = true.
Proof.
  destruct a, b; simpl; try discriminate; destruct c; simpl; try discriminate; auto.
  - destruct b, b0, b1; auto.
  - rewrite !Qeq_bool_iff. intros E1 E2. rewrite E1. exact E2.
  - rewrite !String.eqb_eq. congruence.
  - rewrite !Z.eqb_eq. congruence.
  - rewrite !String.eqb_eq. congruence.
Qed.

Lemma count_for_bump k k' groups :
  count_for k (bump k' groups)
  = (count_for k groups + if bson_eqb k k' then 1 else 0)%nat.
Proof.
  unfold count_for.
  induction groups as [| [k0 n] groups IH]; simpl.
  - destruct (bson_eqb k k'); reflexivity.
  - destruct (bson_eqb k' k0) eqn:E0; simpl.
    + destruct (bson_eqb k k0) eqn:E1.
      * rewrite (bson_eqb_trans k k0 k' E1); [lia |].
        rewrite bson_eqb_sym. exact E0.
      * destruct (bson_eqb k k') eqn:E2; [| lia].
        rewrite (bson_eqb_trans k k' k0 E2 E0) in E1. discriminate E1.
    + destruct (bson_eqb k k0) eqn:E1.
      * destruct (bson_eqb k k') eqn:E2; [| lia].
        rewrite bson_eqb_sym in E2.
        rewrite (bson_eqb_trans k' k k0 E2 E1) in E0. discriminate E0.
      * exact IH.
Qed.

Lemma group_total_bump k groups :
  group_total (bump k groups) = S (group_total groups).
Proof.
  unfold group_total.
  induction groups as [| [k0 n] groups IH]; simpl.
  - reflexivity.
  - destruct (bson_eqb k k0); simpl; [reflexivity |].
    rewrite IH. lia.
Qed.

(** A grouping counts, under each key, the documents of the whole
    collection that carry the key. *)
Lemma group_count_spec field docs k :
  count_for k (group_count field docs)
  = length (List.filter (fun d => bson_eqb k (field_or_null d field)) docs).
Proof.
  unfold group_count.
  assert (Hgen : forall acc,
             count_for k (foldl (fun groups d => bump (field_or_null d field) groups) acc docs)
             = (count_for k acc
                + length (List.filter (fun d => bson_eqb k (field_or_null d field)) docs))%nat).
  { induction docs as [| d docs IH]; intros acc; simpl.
    - lia.
    - rewrite IH, count_for_bump.
      destruct (bson_eqb k (field_or_null d field)); simpl; lia. }
  rewrite Hgen. reflexivity.
Qed.

Lemma group_count_total field docs :
  group_total (group_count field docs) = length docs.
Proof.
  unfold group_count.
  assert (Hgen : forall acc,
             group_total (foldl (fun groups d => bump (field_or_null d field) groups) acc docs)
             = (group_total acc + length docs)%nat).
  { induction docs as [| d docs IH]; intros acc; simpl.
    - lia.
    - rewrite IH, group_total_bump. lia. }
  rewrite Hgen. reflexivity.
Qed.

Lemma numeric_values_scores docs :
  (forall d, In d docs -> exists n, d !! "score" = Some (BNum n)) ->
  numeric_values "score" docs = map score_of docs.
Proof.
  unfold numeric_values. induction docs as [| d docs IH]; intros Hall; simpl.
  - reflexivity.
  - destruct (Hall d (or_introl eq_refl)) as [n Hn].
    unfold score_of at 1. rewrite Hn. simpl. f_equal.
    apply IH. intros d' Hd'. apply Hall. right. exact Hd'.
Qed.

(** C6. On an empty store the statistics are computed, with an average
    score of 0; on every store they are computed; and on a store that has
    leads, each with a numeric [score], the average score is the mean of
    the scores of all leads. *)
Theorem stats_avgScore req :
  (forall us,
      stats_overview req {| leads := []; users := us |}
      = Json 200 (StatsBody {| stats_totalLeads := 0; statusStats := [];
                               sourceStats := []; avgScore := 0 |}))
  /\ (forall st, exists s, stats_overview req st = Json 200 (StatsBody s))
  /\ (forall st s,
        leads st <> [] ->
        (forall d, In d (leads st) -> exists n, d !! "score" = Some (BNum n)) ->
        stats_overview req st = Json 200 (StatsBody s) ->
        (avgScore s == mean (map score_of (leads st)))%Q).
Proof.
  split; [| split].
  - intros us. reflexivity.
  - intros st. eexists. reflexivity.
  - intros st s Hne Hall Hs. unfold stats_overview in Hs.
    injection Hs as <-. simpl. unfold avg_group.
    destruct (leads st) as [| d docs] eqn:El; [contradiction |].
    rewrite numeric_values_scores by exact Hall.
    simpl map. unfold mean, or_zero.
    match goal with
    | |- context [Qeq_bool ?m 0] => destruct (Qeq_bool m 0) eqn:E
    end.
    + apply Qeq_bool_iff in E. symmetry. exact E.
    + reflexivity.
Qed.

Lemma stats_avgScore_witness :
  (avgScore_of_response (stats_overview won_or_lost ten_leads)
   == mean (map score_of (leads ten_leads)))%Q.
Proof.
  destruct (stats_avgScore won_or_lost) as [_ [_ Hmean]].
  apply (Hmean ten_leads).
  - discriminate.
  - intros d Hd. simpl in Hd.
    repeat (destruct Hd as [<- | Hd]; [eexists; reflexivity |]).
    destruct Hd.
  - reflexivity.
Defined.

(** C8. The statistics do not depend on the request, so on no filter it
    carries: whatever the request, [totalLeads] is the size of the whole
    collection, [statusStats] and [sourceStats] count under each value the
    leads of the whole collection that carry it and add up to its size, and
    the average is taken over the whole collection. On the store of ten
    leads (four won, three lost, three new) the list filtered on status in
    {won, lost} returns 7 records, and [statusStats] still accounts for
    all 10. *)
Theorem stats_ignore_filters :
  (forall req1 req2 st, stats_overview req1 st = stats_overview req2 st)
  /\ (forall req st, exists s,
         stats_overview req st = Json 200 (StatsBody s)
         /\ stats_totalLeads s = Z.of_nat (length (leads st))
         /\ (forall k, count_for k (statusStats s)
                       = length (List.filter (fun d => bson_eqb k (field_or_null d "status"))
                                   (leads st)))
         /\ (forall k, count_for k (sourceStats s)
                       = length (List.filter (fun d => bson_eqb k (field_or_null d "source"))
                                   (leads st)))
         /\ group_total (statusStats s) = length (leads st)
         /\ group_total (sourceStats s) = length (leads st)
         /\ avgScore s = or_zero (avg_group "score" (leads st)))
  /\ (exists found pg s,
         list_leads won_or_lost ten_leads = Json 200 (ListBody found pg)
         /\ length found = 7%nat
         /\ totalLeads pg = 7
         /\ stats_overview won_or_lost ten_leads = Json 200 (StatsBody s)
         /\ stats_totalLeads s = 10
         /\ statusStats s = [(BStr "won", 4%nat); (BStr "lost", 3%nat); (BStr "new", 3%nat)]
         /\ group_total (statusStats s) = 10%nat).
Proof.
  split; [| split].
  - intros req1 req2 st. reflexivity.
  - intros req st. eexists. split; [reflexivity |]. simpl.
    repeat split.
    + intros k. apply group_count_spec.
    + intros k. apply group_count_spec.
    + apply group_count_total.
    + apply group_count_total.
  - exists (match list_leads won_or_lost ten_leads with
            | Json _ (ListBody found _) => found
            | _ => []
            end),
           (match list_leads won_or_lost ten_leads with
            | Json _ (ListBody _ pg) => pg
            | _ => mk_pagination 0 1 0
            end),
           (match stats_overview won_or_lost ten_leads with
            | Json _ (StatsBody s) => s
            | _ => {| stats_totalLeads := 0; statusStats := []; sourceStats := [];
                      avgScore := 0 |}
            end).
    refine (conj _ (conj _ (conj _ (conj _ (conj _ (conj _ _))))));
      vm_compute; reflexivity.
Qed.

(** ** Updating a lead *)




Section UpdateClaims.
Context `{JsRuntime}.


End UpdateClaims.


(** ** The auth guard *)

Section GuardClaims.
Context `{Backend}.

(** C4. The guard answers 401 "Access denied. No token provided." when
    neither the cookie nor the header yields a token; with a token, 401
    "Invalid token." when verification fails with a JsonWebTokenError,
    401 "Token expired." when it fails with a TokenExpiredError, 401
    "Invalid token. User not found." when the token verifies and the user
    is gone, 500 on every other exception of the verification or of the
    user lookup, and it passes, with the user less the password, when the
    user is found. The four 401 bodies are distinct. A truthy cookie
    token is the token used, whatever the header; the header's second
    word is used otherwise. *)
Theorem protect_outcomes req st :
  (truthy (request_token req) = false ->
   protect req st = Reject (Json 401 (ErrorBody "Access denied. No token provided.")))
  /\ (forall token,
        request_token req = Some token -> truthy (Some token) = true ->
        (forall e, jwt_verify token = Throw e ->
                   exn_name e = "JsonWebTokenError" ->
                   protect req st = Reject (Json 401 (ErrorBody "Invalid token.")))
        /\ (forall e, jwt_verify token = Throw e ->
                      exn_name e = "TokenExpiredError" ->
                      protect req st = Reject (Json 401 (ErrorBody "Token expired.")))
        /\ (forall decoded,
              jwt_verify token = Return decoded ->
              User_findById st (js_get decoded "id") = Return None ->
              protect req st
              = Reject (Json 401 (ErrorBody "Invalid token. User not found.")))
        /\ (forall decoded user,
              jwt_verify token = Return decoded ->
              User_findById st (js_get decoded "id") = Return (Some user) ->
              protect req st = Pass (delete "password" user))
        /\ (forall e,
              jwt_verify token = Throw e
              \/ (exists decoded, jwt_verify token = Return decoded
                                  /\ User_findById st (js_get decoded "id") = Throw e) ->
              exn_name e <> "JsonWebTokenError" ->
              exn_name e <> "TokenExpiredError" ->
              protect req st
              = Reject (Json 500 (ErrorBody "Server error during authentication."))))
  /\ NoDup ["Access denied. No token provided."; "Invalid token."; "Token expired.";
            "Invalid token. User not found."]
  /\ (forall cookie,
        cookies_token req = Some cookie -> truthy (Some cookie) = true ->
        request_token req = Some cookie)
  /\ (truthy (cookies_token req) = false ->
      request_token req
      = JStr <$> (authorization req ≫= fun h => nth_error (split_on " " h) 1)).
Proof.
  split; [| split; [| split; [| split]]].
  - intros Hno. unfold protect.
    destruct (request_token req) as [token |]; [| reflexivity].
    rewrite Hno. reflexivity.
  - intros token Htoken Htruthy. unfold protect. rewrite Htoken, Htruthy. simpl.
    split; [| split; [| split; [| split]]].
    + intros e He Hname. rewrite He. simpl. unfold protect_catch.
      rewrite Hname. reflexivity.
    + intros e He Hname. rewrite He. simpl. unfold protect_catch.
      rewrite Hname. reflexivity.
    + intros decoded Hd Hu. rewrite Hd. simpl. rewrite Hu. reflexivity.
    + intros decoded user Hd Hu. rewrite Hd. simpl. rewrite Hu. reflexivity.
    + intros e He Hn1 Hn2.
      assert (Hcatch : protect_catch e
                       = Json 500 (ErrorBody "Server error during authentication.")).
      { unfold protect_catch.
        destruct (String.eqb_spec (exn_name e) "JsonWebTokenError"); [contradiction |].
        destruct (String.eqb_spec (exn_name e) "TokenExpiredError"); [contradiction |].
        reflexivity. }
      destruct He as [He | [decoded [Hd Hu]]].
      * rewrite He. simpl. rewrite Hcatch. reflexivity.
      * rewrite Hd. simpl. rewrite Hu. rewrite Hcatch. reflexivity.
  - compute_done.
  - intros cookie Hc Ht. unfold request_token, js_or. rewrite Hc, Ht. reflexivity.
  - intros Hc. unfold request_token, js_or. rewrite Hc. reflexivity.
Qed.

End GuardClaims.

Lemma protect_outcomes_witness :
  protect (plain_request GET []) ten_leads
  = Reject (Json 401 (ErrorBody "Access denied. No token provided."))
  /\ protect (with_tokens (plain_request GET []) None (Some "Bearer garbage")) ten_leads
     = Reject (Json 401 (ErrorBody "Invalid token."))
  /\ protect (with_tokens (plain_request GET []) (Some (JStr "token-old")) None) ten_leads
     = Reject (Json 401 (ErrorBody "Token expired."))
  /\ protect (with_tokens (plain_request GET []) (Some (JStr "token-u0")) None) ten_leads
     = Reject (Json 401 (ErrorBody "Invalid token. User not found."))
  /\ protect (with_tokens (plain_request GET []) (Some (JStr "token-u1")) None) ten_leads
     = Pass (delete "password" sample_user)
  /\ protect (with_tokens (plain_request GET []) (Some (JStr "token-early")) None) ten_leads
     = Reject (Json 500 (ErrorBody "Server error during authentication."))
  /\ request_token (with_tokens (plain_request GET []) (Some (JStr "token-u1"))
                      (Some "Bearer token-old"))
     = Some (JStr "token-u1")
  /\ request_token (with_tokens (plain_request GET []) None (Some "Bearer token-old"))
     = Some (JStr "token-old").
Proof.
  refine (conj _ (conj _ (conj _ (conj _ (conj _ (conj _ (conj _ _))))))).
  - apply (protect_outcomes (plain_request GET []) ten_leads). reflexivity.
  - apply (proj1 (proj2 (protect_outcomes
                           (with_tokens (plain_request GET []) None (Some "Bearer garbage"))
                           ten_leads))
             (JStr "garbage") eq_refl eq_refl)
      with (e := JsonWebTokenError); reflexivity.
  - apply (proj1 (proj2 (protect_outcomes
                           (with_tokens (plain_request GET []) (Some (JStr "token-old")) None)
                           ten_leads))
             (JStr "token-old") eq_refl eq_refl)
      with (e := TokenExpiredError); reflexivity.
  - apply (proj1 (proj2 (protect_outcomes
                           (with_tokens (plain_request GET []) (Some (JStr "token-u0")) None)
                           ten_leads))
             (JStr "token-u0") eq_refl eq_refl)
      with (decoded := JObj [("id", JStr "u0")]); reflexivity.
  - apply (proj1 (proj2 (protect_outcomes
                           (with_tokens (plain_request GET []) (Some (JStr "token-u1")) None)
                           ten_leads))
             (JStr "token-u1") eq_refl eq_refl)
      with (decoded := JObj [("id", JStr "u1")]); reflexivity.
  - apply (proj1 (proj2 (protect_outcomes
                           (with_tokens (plain_request GET []) (Some (JStr "token-early")) None)
                           ten_leads))
             (JStr "token-early") eq_refl eq_refl)
      with (e := NotBeforeError); [left; reflexivity | discriminate | discriminate].
  - apply (protect_outcomes
             (with_tokens (plain_request GET []) (Some (JStr "token-u1"))
                (Some "Bearer token-old")) ten_leads); reflexivity.
  - apply (protect_outcomes
             (with_tokens (plain_request GET []) None (Some "Bearer token-old")) ten_leads).
    reflexivity.
Defined.

(** ** Routing *)

Section RoutingClaims.
Context `{Backend}.

Lemma protect_with_path req path st :
  protect (with_path req path) st = protect req st.
Proof. reflexivity. Qed.

(** What the lead router can do with a request. *)
Lemma dispatch_leadRoutes req st :
  (exists res, protect req st = Reject res
               /\ dispatch leadRoutes req st = [GuardRejected res])
  \/ (exists user, protect req st = Pass user
                   /\ (dispatch leadRoutes req st = [GuardPassed]
                       \/ exists h, lead_handler h = true
                                    /\ dispatch leadRoutes req st = [GuardPassed; Ran h])).
Proof.
  unfold leadRoutes. simpl.
  destruct (protect req st) as [user | res].
  - right. exists user. split; [reflexivity |].
    repeat match goal with
           | |- context [layer_matches ?l req] =>
               destruct (layer_matches l req); simpl
           end;
      first [left; reflexivity | right; eexists; split; [| reflexivity]; reflexivity].
  - left. exists res. split; reflexivity.
Qed.

(** What the auth router can do with a request. *)
Lemma dispatch_authRoutes req st :
  dispatch authRoutes req st = []
  \/ (exists h, In h [Register; Login; Logout] /\ dispatch authRoutes req st = [Ran h])
  \/ dispatch authRoutes req st = [GuardPassed; Ran Me]
  \/ (exists res, dispatch authRoutes req st = [GuardRejected res]).
Proof.
  unfold authRoutes. simpl.
  repeat match goal with
         | |- context [layer_matches ?l req] =>
             destruct (layer_matches l req); simpl
         end;
    try (right; left; eexists; split; [| reflexivity]; simpl; tauto);
    try (left; reflexivity).
  destruct (protect req st) as [user | res]; simpl.
  - right. right. left. reflexivity.
  - right. right. right. exists res. reflexivity.
Qed.

Lemma app_cases req st :
  app req st = []
  \/ (exists rest, app req st = dispatch authRoutes (with_path req rest) st)
  \/ (exists rest, app req st = dispatch leadRoutes (with_path req rest) st).
Proof.
  unfold app.
  destruct (req_path req) as [| api [| mount rest]]; try (left; reflexivity).
  destruct (_ && _).
  - right. left. exists rest. reflexivity.
  - destruct (_ && _).
    + right. right. exists rest. reflexivity.
    + left. reflexivity.
Qed.

(** C5. A lead handler runs only in a request that passed the guard, as
    the one thing after it: when the guard rejects, no lead handler runs;
    each of the six lead operations is reached once the guard passes;
    and register, login and logout run with no guard before them,
    whatever token the request carries or lacks. *)
Theorem lead_routes_guarded req st :
  (forall res h, protect req st = Reject res -> lead_handler h = true ->
                 ~ In (Ran h) (app req st))
  /\ (forall h, lead_handler h = true -> In (Ran h) (app req st) ->
                (exists user, protect req st = Pass user)
                /\ app req st = [GuardPassed; Ran h])
  /\ (forall user id,
        protect req st = Pass user ->
        (req_method req = GET -> req_path req = ["api"; "leads"; "stats"; "overview"] ->
         app req st = [GuardPassed; Ran StatsOverview])
        /\ (req_method req = GET -> req_path req = ["api"; "leads"] ->
            app req st = [GuardPassed; Ran ListLeads])
        /\ (req_method req = GET -> req_path req = ["api"; "leads"; id] ->
            app req st = [GuardPassed; Ran GetLead])
        /\ (req_method req = POST -> req_path req = ["api"; "leads"] ->
            app req st = [GuardPassed; Ran CreateLead])
        /\ (req_method req = PUT -> req_path req = ["api"; "leads"; id] ->
            app req st = [GuardPassed; Ran UpdateLead])
        /\ (req_method req = DELETE -> req_path req = ["api"; "leads"; id] ->
            app req st = [GuardPassed; Ran DeleteLead]))
  /\ (forall h, In h [Register; Login; Logout] -> In (Ran h) (app req st) ->
                app req st = [Ran h])
  /\ (req_method req = POST ->
      (req_path req = ["api"; "auth"; "register"] -> app req st = [Ran Register])
      /\ (req_path req = ["api"; "auth"; "login"] -> app req st = [Ran Login])
      /\ (req_path req = ["api"; "auth"; "logout"] -> app req st = [Ran Logout])).
Proof.
  assert (Hlead : forall h, lead_handler h = true -> In (Ran h) (app req st) ->
                            (exists user, protect req st = Pass user)
                            /\ app req st = [GuardPassed; Ran h]).
  { intros h Hh Hin.
    destruct (app_cases req st) as [Happ | [[rest Happ] | [rest Happ]]];
      rewrite Happ in Hin |- *.
    - destruct Hin.
    - exfalso.
      destruct (dispatch_authRoutes (with_path req rest) st)
        as [Hd | [[h' [Hh' Hd]] | [Hd | [res Hd]]]]; rewrite Hd in Hin; simpl in Hin.
      + exact Hin.
      + destruct Hin as [Hin | []]. injection Hin as ->.
        simpl in Hh'. destruct Hh' as [<- | [<- | [<- | []]]]; discriminate Hh.
      + destruct Hin as [Hin | [Hin | []]]; [discriminate Hin |].
        injection Hin as <-. discriminate Hh.
      + destruct Hin as [Hin | []]. discriminate Hin.
    - destruct (dispatch_leadRoutes (with_path req rest) st)
        as [[res [Hp Hd]] | [user [Hp [Hd | [h' [Hh' Hd]]]]]];
        rewrite Hd in Hin |- *; simpl in Hin.
      + destruct Hin as [Hin | []]. discriminate Hin.
      + destruct Hin as [Hin | []]. discriminate Hin.
      + destruct Hin as [Hin | [Hin | []]]; [discriminate Hin |].
        injection Hin as ->. split; [| reflexivity].
        exists user. rewrite <- (protect_with_path req rest st). exact Hp. }
  split; [| split; [exact Hlead | split; [| split]]].
  - intros res h Hrej Hh Hin.
    destruct (Hlead h Hh Hin) as [[user Hpass] _]. congruence.
  - intros user id Hpass.
    assert (Hp : forall rest, protect (with_path req rest) st = Pass user).
    { intros rest. rewrite protect_with_path. exact Hpass. }
    repeat split; intros Hm Hpath; unfold app; rewrite Hpath;
      cbn -[lower String.eqb]; unfold layer_matches;
      cbn -[lower String.eqb]; rewrite Hm, Hp;
      cbn -[lower String.eqb]; rewrite ?andb_false_r; reflexivity.
  - intros h Hh Hin.
    destruct (app_cases req st) as [Happ | [[rest Happ] | [rest Happ]]];
      rewrite Happ in Hin |- *.
    + destruct Hin.
    + destruct (dispatch_authRoutes (with_path req rest) st)
        as [Hd | [[h' [Hh' Hd]] | [Hd | [res Hd]]]]; rewrite Hd in Hin |- *; simpl in Hin.
      * destruct Hin.
      * destruct Hin as [Hin | []]. injection Hin as ->. reflexivity.
      * destruct Hin as [Hin | [Hin | []]]; [discriminate Hin |].
        injection Hin as <-. simpl in Hh. intuition discriminate.
      * destruct Hin as [Hin | []]. discriminate Hin.
    + exfalso.
      destruct (dispatch_leadRoutes (with_path req rest) st)
        as [[res [Hp Hd]] | [user [Hp [Hd | [h' [Hh' Hd]]]]]];
        rewrite Hd in Hin; simpl in Hin.
      * destruct Hin as [Hin | []]. discriminate Hin.
      * destruct Hin as [Hin | []]. discriminate Hin.
      * destruct Hin as [Hin | [Hin | []]]; [discriminate Hin |].
        injection Hin as ->. simpl in Hh.
        destruct Hh as [<- | [<- | [<- | []]]]; discriminate Hh'.
  - intros Hm. repeat split; intros Hpath; unfold app; rewrite Hpath; simpl;
      unfold layer_matches; simpl; rewrite Hm; reflexivity.
Qed.

End RoutingClaims.

Lemma lead_routes_guarded_witness :
  ~ In (Ran ListLeads) (app (plain_request GET ["api"; "leads"]) ten_leads)
  /\ app (with_tokens (plain_request GET ["api"; "leads"]) (Some (JStr "token-u1")) None)
         ten_leads
     = [GuardPassed; Ran ListLeads]
  /\ app (with_tokens (plain_request PUT ["api"; "leads"; "l3"]) (Some (JStr "token-u1")) None)
         ten_leads
     = [GuardPassed; Ran UpdateLead]
  /\ app (plain_request POST ["api"; "auth"; "logout"]) ten_leads = [Ran Logout]
  /\ app (plain_request POST ["api"; "auth"; "register"]) ten_leads = [Ran Register].
Proof.
  refine (conj _ (conj _ (conj _ (conj _ _)))).
  - apply (proj1 (lead_routes_guarded (plain_request GET ["api"; "leads"]) ten_leads)
             (Json 401 (ErrorBody "Access denied. No token provided."))
             ListLeads); reflexivity.
  - apply (proj1 (proj2 (lead_routes_guarded
                           (with_tokens (plain_request GET ["api"; "leads"])
                              (Some (JStr "token-u1")) None) ten_leads))
             ListLeads eq_refl).
    right. left. reflexivity.
  - assert (Hpass : protect (with_tokens (plain_request PUT ["api"; "leads"; "l3"])
                                (Some (JStr "token-u1")) None) ten_leads
                     = Pass (delete "password" sample_user))
      by (vm_compute; reflexivity).
    apply (proj1 (proj2 (proj2 (lead_routes_guarded
                                  (with_tokens (plain_request PUT ["api"; "leads"; "l3"])
                                     (Some (JStr "token-u1")) None) ten_leads)))
             (delete "password" sample_user) "l3" Hpass); reflexivity.
  - apply (proj1 (proj2 (proj2 (proj2 (lead_routes_guarded
                                         (plain_request POST ["api"; "auth"; "logout"])
                                         ten_leads))))
             Logout).
    + simpl. tauto.
    + left. reflexivity.
  - apply (proj2 (proj2 (proj2 (proj2 (lead_routes_guarded
                                         (plain_request POST ["api"; "auth"; "register"])
                                         ten_leads))))
             eq_refl); reflexivity.
Defined.

(** ** The session cookie and the token *)

Lemma ms_7d : ms "7d" = Some (7 * msPerDay).
Proof. reflexivity. Qed.

Lemma sign_claims_lifetime userId now :
  tok_exp (sign_claims userId now)
  = Some (tok_iat (sign_claims userId now) + 7 * 24 * 60 * 60).
Proof.
  unfold sign_claims, timespan. cbn [tok_exp tok_iat].
  rewrite ms_7d. reflexivity.
Qed.

Section SessionClaims.
Context `{Backend}.

(** C10. Whenever register or login sets the session cookie, the cookie
    is [token] and its value is what [jwt.sign] returns for a token that
    carries the id of the user just saved (register) or found (login), is
    issued at that time, and expires 7 days (in seconds) after its issue;
    the cookie's [maxAge] is 7 days (in milliseconds), and the two
    lifetimes are the same. *)
Theorem session_lifetimes_agree req now st res st' name value options :
  register req now st = (res, st', SetCookie name value options)
  \/ login req now st = (res, st', SetCookie name value options) ->
  exists user issued,
    (User_save st (js_get (body req) "firstName") (js_get (body req) "lastName")
       (js_get (body req) "email") (js_get (body req) "password")
     = Return (user, st')
     \/ User_findOne st (js_get (body req) "email") = Return (Some user) /\ st' = st)
    /\ name = "token"
    /\ jwt_encode issued = Return value
    /\ tok_payload issued = JObj [("id", JStr (user_id user))]
    /\ tok_iat issued = now / 1000
    /\ tok_exp issued = Some (tok_iat issued + 7 * 24 * 60 * 60)
    /\ maxAge options = Some (7 * msPerDay)
    /\ maxAge options = (fun exp => 1000 * (exp - tok_iat issued)) <$> tok_exp issued.
Proof.
  assert (Hagree : forall userId,
             Some (7 * 24 * 60 * 60 * 1000)
             = (fun exp => 1000 * (exp - tok_iat (sign_claims userId now)))
                 <$> tok_exp (sign_claims userId now)).
  { intros userId. rewrite sign_claims_lifetime. simpl. f_equal. lia. }
  intros [Hreg | Hlog].
  - unfold register in Hreg.
    destruct (validation_errors req); [| discriminate Hreg].
    destruct (User_findOne st _) as [[existing |] | e]; try discriminate Hreg.
    destruct (User_save st _ _ _ _) as [[user st1] | e] eqn:Esave; [| discriminate Hreg].
    destruct (generateToken (user_id user) now) as [token | e] eqn:Etoken;
      [| discriminate Hreg].
    injection Hreg as _ <- <- <- <-.
    exists user, (sign_claims (user_id user) now).
    split; [left; reflexivity |]. split; [reflexivity |].
    split; [exact Etoken |]. split; [reflexivity |]. split; [reflexivity |].
    split; [apply sign_claims_lifetime |]. split; [reflexivity |].
    apply Hagree.
  - unfold login in Hlog.
    destruct (validation_errors req); [| discriminate Hlog].
    destruct (User_findOne st _) as [[user |] | e] eqn:Efind; try discriminate Hlog.
    destruct (comparePassword user _) as [[|] | e]; try discriminate Hlog.
    destruct (generateToken (user_id user) now) as [token | e] eqn:Etoken;
      [| discriminate Hlog].
    injection Hlog as _ <- <- <- <-.
    exists user, (sign_claims (user_id user) now).
    split; [right; split; reflexivity |]. split; [reflexivity |].
    split; [exact Etoken |]. split; [reflexivity |]. split; [reflexivity |].
    split; [apply sign_claims_lifetime |]. split; [reflexivity |].
    apply Hagree.
Qed.

End SessionClaims.

Lemma session_lifetimes_agree_witness :
  (exists res st' options issued,
      register register_request 5000 ten_leads
      = (res, st', SetCookie "token" "token-u2" options)
      /\ jwt_encode issued = Return "token-u2"
      /\ tok_iat issued = 5
      /\ tok_exp issued = Some (tok_iat issued + 604800)
      /\ maxAge options = Some 604800000)
  /\ (exists res st' options issued,
         login login_request 5000 ten_leads
         = (res, st', SetCookie "token" "token-u1" options)
         /\ jwt_encode issued = Return "token-u1"
         /\ tok_iat issued = 5
         /\ tok_exp issued = Some (tok_iat issued + 604800)
         /\ maxAge options = Some 604800000).
Proof.
  split.
  - pose (out := register register_request 5000 ten_leads).
    pose (options := match snd out with
                     | SetCookie _ _ options => options
                     | _ => {| httpOnly := false; secure := false; sameSite := "";
                               maxAge := None; cookie_path := "" |}
                     end).
    assert (Ereg : register register_request 5000 ten_leads
                   = (fst (fst out), snd (fst out), SetCookie "token" "token-u2" options))
      by (vm_compute; reflexivity).
    destruct (session_lifetimes_agree register_request 5000 ten_leads _ _ _ _ _
                (or_introl Ereg))
      as (user & issued & _ & _ & Hvalue & _ & Hiat & Hexp & Hage & _).
    exists (fst (fst out)), (snd (fst out)), options, issued.
    split; [exact Ereg |]. split; [exact Hvalue |]. split; [exact Hiat |].
    split; [exact Hexp | exact Hage].
  - pose (out := login login_request 5000 ten_leads).
    pose (options := match snd out with
                     | SetCookie _ _ options => options
                     | _ => {| httpOnly := false; secure := false; sameSite := "";
                               maxAge := None; cookie_path := "" |}
                     end).
    assert (Elog : login login_request 5000 ten_leads
                   = (fst (fst out), snd (fst out), SetCookie "token" "token-u1" options))
      by (vm_compute; reflexivity).
    destruct (session_lifetimes_agree login_request 5000 ten_leads _ _ _ _ _
                (or_intror Elog))
      as (user & issued & _ & _ & Hvalue & _ & Hiat & Hexp & Hage & _).
    exists (fst (fst out)), (snd (fst out)), options, issued.
    split; [exact Elog |]. split; [exact Hvalue |]. split; [exact Hiat |].
    split; [exact Hexp | exact Hage].
Defined.
(** * Further properties *)
(** ** More of the filter compiler *)

Section FilterCompilerMore.
Context `{JsRuntime}.

(** What an entry does to the query built so far is what it does to the
    empty query, laid over it. *)
Lemma filter_entry_union key filter query :
  filter_entry key filter query
  = (delta ← filter_entry key filter ∅; Return (delta ∪ query)).
Proof.
  unfold filter_entry.
  destruct (negb (truthy filter) || _); [simpl; rewrite (left_id ∅ (∪)); reflexivity |].
  destruct (negb _); [simpl; rewrite (left_id ∅ (∪)); reflexivity |].
  destruct (prop filter "value") as [value |];
    [| simpl; rewrite (left_id ∅ (∪)); reflexivity].
  destruct (key_in key text_fields).
  { destruct (is_str (prop filter "operator") "equals"),
      (is_str (prop filter "operator") "contains"); simpl;
      try destruct (RegExp_new value); simpl;
      rewrite <- ?insert_union_l, ?(left_id ∅ (∪)); reflexivity. }
  destruct (key_in key enum_fields).
  { destruct (is_str (prop filter "operator") "equals"),
      (is_str (prop filter "operator") "in" && isArray value); simpl;
      rewrite <- ?insert_union_l, ?(left_id ∅ (∪)); reflexivity. }
  destruct (key_in key numeric_fields).
  { destruct (is_str (prop filter "operator") "equals"),
      (is_str (prop filter "operator") "gt"),
      (is_str (prop filter "operator") "lt"),
      (prop filter "value2") as [v2 |];
      try destruct (is_str (prop filter "operator") "between"); simpl;
      rewrite <- ?insert_union_l, ?(left_id ∅ (∪)); reflexivity. }
  destruct (key_in key temporal_fields).
  { destruct (Date_new value) as [d |];
      destruct (is_str (prop filter "operator") "on"),
        (is_str (prop filter "operator") "before"),
        (is_str (prop filter "operator") "after"),
        (prop filter "value2") as [v2 |];
      try destruct (is_str (prop filter "operator") "between");
      try destruct (Date_new v2) as [d2 |]; simpl;
      rewrite <- ?insert_union_l, ?(left_id ∅ (∪)); reflexivity. }
  destruct (key_in key boolean_fields).
  { destruct (is_str (prop filter "operator") "equals"); simpl;
      rewrite <- ?insert_union_l, ?(left_id ∅ (∪)); reflexivity. }
  simpl. rewrite (left_id ∅ (∪)). reflexivity.
Qed.

Lemma key_in_recognized key :
  key_in key text_fields = true \/ key_in key enum_fields = true
  \/ key_in key numeric_fields = true \/ key_in key temporal_fields = true
  \/ key_in key boolean_fields = true ->
  recognized key = true.
Proof.
  unfold recognized, key_in. rewrite !existsb_app, !orb_true_iff. tauto.
Qed.

(** On the empty query an entry yields nothing or one condition, under its
    own key, and then the key is a recognized field and the entry an
    object. *)
Lemma filter_entry_delta key filter delta :
  filter_entry key filter ∅ = Return delta ->
  delta = ∅
  \/ (exists c, delta = <[key := c]> ∅
                /\ recognized key = true
                /\ typeof filter = "object").
Proof.
  unfold filter_entry.
  destruct (negb (truthy filter) || negb (typeof filter =? "object")%string) eqn:Eguard;
    [intros Hd; cbv beta iota in Hd; injection Hd as <-; left; reflexivity |].
  apply orb_false_elim in Eguard as [_ Etype].
  apply negb_false_iff, String.eqb_eq in Etype.
  destruct (negb _); [intros Hd; cbv beta iota in Hd; injection Hd as <-; left; reflexivity |].
  destruct (prop filter "value") as [value |]; [| intros Hd; cbv beta iota in Hd; injection Hd as <-; left; reflexivity].
  assert (Hfound : forall c, recognized key = true ->
             <[key := c]> (∅ : gmap string qvalue) = ∅
             \/ (exists c', <[key := c]> (∅ : gmap string qvalue) = <[key := c']> ∅
                            /\ recognized key = true /\ typeof filter = "object")).
  { intros c Hr. right. exists c. auto. }
  destruct (key_in key text_fields) eqn:Etext.
  { assert (Hr : recognized key = true) by (apply key_in_recognized; tauto).
    destruct (is_str (prop filter "operator") "equals"),
      (is_str (prop filter "operator") "contains");
      try destruct (RegExp_new value); simpl; intros Hd; cbv beta iota in Hd;
      try discriminate Hd; injection Hd as <-;
      rewrite ?insert_insert_eq; auto. }
  destruct (key_in key enum_fields) eqn:Eenum.
  { assert (Hr : recognized key = true) by (apply key_in_recognized; tauto).
    destruct (is_str (prop filter "operator") "equals"),
      (is_str (prop filter "operator") "in" && isArray value);
      simpl; intros Hd; cbv beta iota in Hd; injection Hd as <-; rewrite ?insert_insert_eq; auto. }
  destruct (key_in key numeric_fields) eqn:Enum.
  { assert (Hr : recognized key = true) by (apply key_in_recognized; tauto).
    destruct (is_str (prop filter "operator") "equals"),
      (is_str (prop filter "operator") "gt"),
      (is_str (prop filter "operator") "lt"),
      (prop filter "value2") as [v2 |];
      try destruct (is_str (prop filter "operator") "between");
      simpl; intros Hd; cbv beta iota in Hd; injection Hd as <-; rewrite ?insert_insert_eq; auto. }
  destruct (key_in key temporal_fields) eqn:Etemp.
  { assert (Hr : recognized key = true) by (apply key_in_recognized; tauto).
    destruct (Date_new value) as [d |];
      destruct (is_str (prop filter "operator") "on"),
        (is_str (prop filter "operator") "before"),
        (is_str (prop filter "operator") "after"),
        (prop filter "value2") as [v2 |];
      try destruct (is_str (prop filter "operator") "between");
      try destruct (Date_new v2) as [d2 |];
      simpl; intros Hd; cbv beta iota in Hd; try discriminate Hd; injection Hd as <-;
      rewrite ?insert_insert_eq; auto. }
  destruct (key_in key boolean_fields) eqn:Ebool.
  { assert (Hr : recognized key = true) by (apply key_in_recognized; tauto).
    destruct (is_str (prop filter "operator") "equals");
      simpl; intros Hd; cbv beta iota in Hd; injection Hd as <-; auto. }
  intros Hd; cbv beta iota in Hd; injection Hd as <-. left. reflexivity.
Qed.

Lemma forEach_key_keys keys props query q :
  forEach_key keys props query = Return q ->
  forall k c, q !! k = Some c ->
    query !! k = Some c
    \/ (In k keys /\ recognized k = true /\ typeof (assoc k props) = "object").
Proof.
  revert query. induction keys as [| key keys IH]; intros query Hrun k c Hk;
    simpl in Hrun.
  - injection Hrun as <-. left. exact Hk.
  - rewrite filter_entry_union in Hrun.
    destruct (filter_entry key (assoc key props) ∅) as [delta |] eqn:Ed;
      [| discriminate Hrun].
    simpl in Hrun.
    destruct (IH _ Hrun k c Hk) as [Hin | [Hin Hrest]].
    + destruct (filter_entry_delta _ _ _ Ed) as [-> | [c' [-> [Hr Ht]]]].
      * rewrite (left_id ∅ (∪)) in Hin. left. exact Hin.
      * rewrite <- insert_union_l, (left_id ∅ (∪)) in Hin.
        destruct (decide (key = k)) as [-> | Hne].
        -- right. split; [left; reflexivity | split; assumption].
        -- rewrite lookup_insert_ne in Hin by exact Hne. left. exact Hin.
    + right. split; [right; exact Hin | exact Hrest].
Qed.

(** X1. Whatever the filters, the compiled query has conditions only under
    recognized lead fields, each an own key of the filters whose entry is
    an object: no other key of the filters, such as [$where] or [$or],
    reaches the query. *)
Theorem compiled_keys_are_fields filters q :
  buildFilterQuery filters = Return q ->
  forall k c, q !! k = Some c ->
    recognized k = true
    /\ exists props, own_props filters = Return props
                     /\ In k (map fst props)
                     /\ typeof (assoc k props) = "object".
Proof.
  unfold buildFilterQuery. intros Hrun k c Hk.
  destruct (own_props filters) as [props |] eqn:Ep; [| discriminate Hrun].
  simpl in Hrun.
  destruct (forEach_key_keys _ _ _ _ Hrun k c Hk) as [Hempty | [Hin [Hr Ht]]].
  - rewrite lookup_empty in Hempty. discriminate Hempty.
  - split; [exact Hr |]. exists props. auto.
Qed.

End FilterCompilerMore.

Lemma compiled_keys_are_fields_witness :
  recognized "status" = true
  /\ exists props,
       own_props (JObj [("$where", entry (JStr "equals") (JStr "1"));
                        ("status", entry (JStr "equals") (JStr "won"))])
       = Return props
       /\ In "status" (map fst props)
       /\ typeof (assoc "status" props) = "object".
Proof.
  apply (@compiled_keys_are_fields sample_runtime
           (JObj [("$where", entry (JStr "equals") (JStr "1"));
                  ("status", entry (JStr "equals") (JStr "won"))])
           (<["status" := QJson (JStr "won")]> ∅)
           eq_refl "status" (QJson (JStr "won"))).
  reflexivity.
Defined.

Section Entrywise.
Context `{JsRuntime}.

Lemma filter_entry_other key filter delta k :
  filter_entry key filter ∅ = Return delta -> k <> key -> delta !! k = None.
Proof.
  intros Hd Hne.
  destruct (filter_entry_delta _ _ _ Hd) as [-> | [c [-> _]]].
  - apply lookup_empty.
  - rewrite lookup_insert_ne by congruence. apply lookup_empty.
Qed.

Lemma forEach_key_lookup keys props query q :
  NoDup keys ->
  forEach_key keys props query = Return q ->
  forall k,
    q !! k
    = if decide (k ∈ keys)
      then match filter_entry k (assoc k props) ∅ with
           | Return delta => union_with (fun c _ => Some c) (delta !! k) (query !! k)
           | Throw _ => None
           end
      else query !! k.
Proof.
  revert query. induction keys as [| key keys IH]; intros query Hnd Hrun k;
    simpl in Hrun.
  - injection Hrun as <-. destruct (decide (k ∈ [])) as [Hin | _]; [| reflexivity].
    inversion Hin.
  - apply list.NoDup_cons in Hnd as [Hfresh Hnd].
    rewrite filter_entry_union in Hrun.
    destruct (filter_entry key (assoc key props) ∅) as [delta |] eqn:Ed;
      [| discriminate Hrun].
    simpl in Hrun. rewrite (IH _ Hnd Hrun k).
    destruct (decide (k = key)) as [-> | Hne].
    + destruct (decide (key ∈ keys)) as [Hin | _]; [contradiction |].
      destruct (decide (key ∈ key :: keys)) as [_ | Hout];
        [| exfalso; apply Hout; left].
      rewrite Ed. apply lookup_union.
    + assert (Hk : (delta ∪ query) !! k = query !! k).
      { rewrite lookup_union, (filter_entry_other _ _ _ k Ed Hne).
        destruct (query !! k); reflexivity. }
      destruct (decide (k ∈ keys)) as [Hin | Hout].
      * destruct (decide (k ∈ key :: keys)) as [_ | Hout];
          [| exfalso; apply Hout; right; exact Hin].
        rewrite Hk. reflexivity.
      * destruct (decide (k ∈ key :: keys)) as [Hin | _]; [| exact Hk].
        apply elem_of_cons in Hin as [-> | Hin]; contradiction.
Qed.

Lemma assoc_None {A} key (props : list (string * A)) :
  key ∉ map fst props -> assoc key props = None.
Proof.
  induction props as [| [k v] props IH]; simpl; intros Hout; [reflexivity |].
  destruct (String.eqb_spec k key) as [-> | Hne].
  - exfalso. apply Hout. left.
  - apply IH. intros Hin. apply Hout. right. exact Hin.
Qed.

Lemma assoc_Permutation {A} (props props' : list (string * A)) key :
  NoDup (map fst props) -> props ≡ₚ props' -> assoc key props = assoc key props'.
Proof.
  intros Hnd Hperm. induction Hperm as [| [k v] l l' Hp IH | [k1 v1] [k2 v2] l | l1 l2 l3 H1 IH1 H2 IH2].
  - reflexivity.
  - simpl. simpl in Hnd. apply list.NoDup_cons in Hnd as [_ Hnd].
    rewrite (IH Hnd). reflexivity.
  - simpl. simpl in Hnd. apply list.NoDup_cons in Hnd as [Hfresh _].
    destruct (String.eqb_spec k1 key) as [-> | Hne1];
      destruct (String.eqb_spec k2 key) as [-> | Hne2]; try reflexivity.
    exfalso. apply Hfresh. left.
  - rewrite IH1 by exact Hnd. apply IH2.
    rewrite <- H1. exact Hnd.
Qed.

(** X2. Over a mapping with distinct keys the compiled query is made entry
    by entry: under each key it holds what the key's own entry compiles to
    when alone, and nothing under a key the mapping lacks. So the order of
    the entries does not matter: two orderings of one mapping that both
    compile give the same query. *)
Theorem compile_is_entrywise props q :
  NoDup (map fst props) ->
  buildFilterQuery (JObj props) = Return q ->
  (forall k, q !! k = match assoc k props with
                      | Some filter => condition_of k filter
                      | None => None
                      end)
  /\ (forall props' q',
         props ≡ₚ props' -> buildFilterQuery (JObj props') = Return q' -> q' = q).
Proof.
  assert (Hlookup : forall props q,
             NoDup (map fst props) -> buildFilterQuery (JObj props) = Return q ->
             forall k, q !! k = match assoc k props with
                                | Some filter => condition_of k filter
                                | None => None
                                end).
  { clear props q. intros props q Hnd Hrun k.
    unfold buildFilterQuery in Hrun. simpl in Hrun.
    rewrite (forEach_key_lookup _ _ _ _ Hnd Hrun k), lookup_empty.
    destruct (decide (k ∈ map fst props)) as [Hin | Hout].
    - destruct (assoc k props) as [filter |] eqn:Ea.
      + unfold condition_of.
        destruct (filter_entry k (Some filter) ∅) as [delta |]; [| reflexivity].
        destruct (delta !! k); reflexivity.
      + destruct (filter_entry k None ∅) as [delta |] eqn:Ed; [| reflexivity].
        unfold filter_entry in Ed. simpl in Ed. injection Ed as <-.
        rewrite lookup_empty. reflexivity.
    - rewrite (assoc_None _ _ Hout). reflexivity. }
  intros Hnd Hrun. split; [apply Hlookup; assumption |].
  intros props' q' Hperm Hrun'. apply map_eq. intros k.
  assert (Hnd' : NoDup (map fst props')) by (rewrite <- Hperm; exact Hnd).
  rewrite (Hlookup _ _ Hnd Hrun k), (Hlookup _ _ Hnd' Hrun' k).
  rewrite (assoc_Permutation props props' k Hnd Hperm). reflexivity.
Qed.

End Entrywise.

Lemma compile_is_entrywise_witness :
  (<["status" := QJson (JStr "won")]> (<["score" := QObj [("$gt", QJson (JNum 50))]]> ∅)
   : gmap string qvalue) !! "score"
  = condition_of "score" (entry (JStr "gt") (JNum 50))
  /\ buildFilterQuery (JObj [("status", entry (JStr "equals") (JStr "won"));
                             ("score", entry (JStr "gt") (JNum 50))])
     = buildFilterQuery (JObj [("score", entry (JStr "gt") (JNum 50));
                               ("status", entry (JStr "equals") (JStr "won"))]).
Proof.
  pose (props := [("score", entry (JStr "gt") (JNum 50));
                  ("status", entry (JStr "equals") (JStr "won"))]).
  pose (q := (<["status" := QJson (JStr "won")]>
                (<["score" := QObj [("$gt", QJson (JNum 50))]]> ∅) : gmap string qvalue)).
  assert (Hnd : NoDup (map fst props)) by compute_done.
  assert (Hrun : @buildFilterQuery sample_runtime (JObj props) = Return q)
    by (vm_compute; reflexivity).
  destruct (@compile_is_entrywise sample_runtime props q Hnd Hrun) as [Hlookup Horder].
  split.
  - apply (Hlookup "score").
  - assert (Hrun' : @buildFilterQuery sample_runtime
                      (JObj [("status", entry (JStr "equals") (JStr "won"));
                             ("score", entry (JStr "gt") (JNum 50))])
                    = Return q)
      by (vm_compute; reflexivity).
    rewrite Hrun'. symmetry. exact Hrun.
Defined.

Ltac run_single Hop Hv :=
  unfold buildFilterQuery; simpl; unfold filter_entry, prop;
  simpl in Hop, Hv; simpl; rewrite Hop, Hv; simpl;
  try reflexivity.

Section CompilerBranches.
Context `{JsRuntime}.

Ltac one_of_keys Hk :=
  apply key_in_In in Hk; simpl in Hk;
  repeat (destruct Hk as [<- | Hk]); try destruct Hk.

Ltac run_entry Hop Hv :=
  unfold condition_of, filter_entry, prop; simpl in Hop, Hv; simpl;
  rewrite Hop, Hv; simpl.

(** X3. Under a text, enum or numeric field an [equals] hands the value to
    the query as it came, whatever its shape: a string, a number, [null],
    or an object such as [{ "$ne": null }]. *)
Theorem equals_passes_value_through key filter value :
  key_in key (text_fields ++ enum_fields ++ numeric_fields) = true ->
  js_get filter "operator" = Some (JStr "equals") ->
  js_get filter "value" = Some value ->
  condition_of key filter = Some (QJson value)
  /\ buildFilterQuery (JObj [(key, filter)]) = Return {[ key := QJson value ]}.
Proof.
  intros Hk Hop Hv.
  destruct filter as [| | | | | props]; try discriminate Hop.
  rewrite <- insert_empty.
  one_of_keys Hk; (split; [run_entry Hop Hv | run_single Hop Hv]);
    try (destruct (assoc "value2" props); simpl);
    rewrite ?lookup_insert_eq; reflexivity.
Qed.

(** X4. Under [isQualified] an [equals] always compiles to an equality with
    a boolean, which is [true] exactly when the value is [true] or the
    string ["true"]; every other value, [false], ["false"], [1], [null] or
    an object, compiles to an equality with [false]. *)
Theorem isQualified_is_coerced filter value :
  js_get filter "operator" = Some (JStr "equals") ->
  js_get filter "value" = Some value ->
  exists b,
    buildFilterQuery (JObj [("isQualified", filter)])
    = Return {[ "isQualified" := QJson (JBool b) ]}
    /\ (b = true <-> value = JBool true \/ value = JStr "true").
Proof.
  intros Hop Hv.
  destruct filter as [| | | | | props]; try discriminate Hop.
  exists (is_str (Some value) "true" || match value with JBool true => true | _ => false end).
  split.
  - rewrite <- insert_empty. run_single Hop Hv.
  - destruct value as [| [|] | n | s | items | fields]; simpl;
      try (split; [discriminate | intros [Hx | Hx]; discriminate Hx]).
    + split; auto.
    + rewrite orb_false_r. split.
      * intros Hs. apply String.eqb_eq in Hs. subst s. right. reflexivity.
      * intros [Hx | Hx]; [discriminate Hx |]. injection Hx as ->. reflexivity.
Qed.

(** X5. The operators that need more than a value add nothing when it is
    missing: under an enum field [in] compiles to [{ $in: value }] when the
    value is an array and to no condition otherwise; under a numeric field
    [between] compiles to [{ $gte: value, $lte: value2 }] when [value2] is
    there and to no condition otherwise. *)
Theorem in_and_between_guards key filter value :
  js_get filter "value" = Some value ->
  (key_in key enum_fields = true ->
   js_get filter "operator" = Some (JStr "in") ->
   condition_of key filter
   = if isArray value then Some (QObj [("$in", QJson value)]) else None)
  /\ (key_in key numeric_fields = true ->
      js_get filter "operator" = Some (JStr "between") ->
      condition_of key filter
      = match js_get filter "value2" with
        | Some value2 => Some (QObj [("$gte", QJson value); ("$lte", QJson value2)])
        | None => None
        end).
Proof.
  intros Hv.
  destruct filter as [| | | | | props]; try discriminate Hv.
  split; intros Hk Hop.
  - one_of_keys Hk; run_entry Hop Hv;
      destruct (isArray value); simpl; rewrite ?lookup_insert_eq; reflexivity.
  - one_of_keys Hk; run_entry Hop Hv;
      destruct (assoc "value2" props); simpl; rewrite ?lookup_insert_eq; reflexivity.
Qed.

(** X6. The compiler does not check dates. Under a temporal field an [on],
    [before] or [after] whose value is no date is neither refused nor
    dropped: it compiles to a condition that holds an Invalid Date. *)
Theorem invalid_date_is_compiled key filter value op :
  key_in key temporal_fields = true ->
  In op ["on"; "before"; "after"] ->
  js_get filter "operator" = Some (JStr op) ->
  js_get filter "value" = Some value ->
  Date_new value = Return None ->
  exists c, buildFilterQuery (JObj [(key, filter)]) = Return {[ key := c ]}
            /\ has_invalid_date c = true.
Proof.
  intros Hk Hin Hop Hv Hd.
  destruct filter as [| | | | | props]; try discriminate Hop.
  apply temporal_key in Hk. simpl in Hin.
  destruct Hin as [<- | [<- | [<- | []]]].
  - exists (QObj [("$gte", QDate None); ("$lt", QDate None)]).
    split; [| reflexivity]. rewrite <- insert_empty.
    destruct Hk as [-> | ->]; run_single Hop Hv; rewrite Hd; simpl;
      destruct (assoc "value2" props); reflexivity.
  - exists (QObj [("$lt", QDate None)]).
    split; [| reflexivity]. rewrite <- insert_empty.
    destruct Hk as [-> | ->]; run_single Hop Hv; rewrite Hd; simpl;
      destruct (assoc "value2" props); reflexivity.
  - exists (QObj [("$gt", QDate None)]).
    split; [| reflexivity]. rewrite <- insert_empty.
    destruct Hk as [-> | ->]; run_single Hop Hv; rewrite Hd; simpl;
      destruct (assoc "value2" props); reflexivity.
Qed.

End CompilerBranches.

Lemma equals_passes_value_through_witness :
  condition_of "email" (entry (JStr "equals") (JObj [("$ne", JNull)]))
  = Some (QJson (JObj [("$ne", JNull)]))
  /\ buildFilterQuery (JObj [("email", entry (JStr "equals") (JObj [("$ne", JNull)]))])
     = Return {[ "email" := QJson (JObj [("$ne", JNull)]) ]}.
Proof.
  apply (@equals_passes_value_through sample_runtime "email"
           (entry (JStr "equals") (JObj [("$ne", JNull)])) (JObj [("$ne", JNull)]));
    reflexivity.
Defined.

Lemma isQualified_is_coerced_witness :
  exists b,
    buildFilterQuery (JObj [("isQualified", entry (JStr "equals") (JStr "false"))])
    = Return {[ "isQualified" := QJson (JBool b) ]}
    /\ (b = true <-> JStr "false" = JBool true \/ JStr "false" = JStr "true").
Proof.
  apply (@isQualified_is_coerced sample_runtime
           (entry (JStr "equals") (JStr "false")) (JStr "false"));
    reflexivity.
Defined.

Lemma in_and_between_guards_witness :
  condition_of "status" (entry (JStr "in") (JStr "won")) = None
  /\ condition_of "score" (entry2 (JStr "between") (JNum 10) (JNum 20))
     = Some (QObj [("$gte", QJson (JNum 10)); ("$lte", QJson (JNum 20))]).
Proof.
  split.
  - apply (proj1 (@in_and_between_guards sample_runtime "status"
                    (entry (JStr "in") (JStr "won")) (JStr "won") eq_refl));
      reflexivity.
  - apply (proj2 (@in_and_between_guards sample_runtime "score"
                    (entry2 (JStr "between") (JNum 10) (JNum 20)) (JNum 10) eq_refl));
      reflexivity.
Defined.

Lemma invalid_date_is_compiled_witness :
  exists c,
    buildFilterQuery (JObj [("createdAt", entry (JStr "on") (JStr "yesterday"))])
    = Return {[ "createdAt" := c ]}
    /\ has_invalid_date c = true.
Proof.
  apply (@invalid_date_is_compiled sample_runtime "createdAt"
           (entry (JStr "on") (JStr "yesterday")) (JStr "yesterday") "on");
    try reflexivity.
  simpl. tauto.
Defined.

(** ** More of the list handler *)

Section ListMore.
Context `{JsRuntime}.

(** X7. What the list handler answers when an input is bad, in the order
    it checks: validation messages give 400 with the messages; then a
    [filters] text that does not parse, one that parses to [null], or one
    whose compilation throws gives 400 "Invalid filters format"; but a
    [search] text the engine refuses as a pattern is no 400: the error goes
    to [next]. *)
Theorem list_error_answers req st :
  (validation_errors req <> [] ->
   list_leads req st
   = Json 400 (ValidationBody "Validation failed" (validation_errors req)))
  /\ (validation_errors req = [] ->
      (forall text, query_filters req = Some (JStr text) -> text <> "" ->
                    JSON_parse text = None \/ JSON_parse text = Some JNull ->
                    list_leads req st = Json 400 (ErrorBody "Invalid filters format"))
      /\ (forall filters e, query_filters req = Some filters ->
                            truthy (Some filters) = true ->
                            typeof (Some filters) = "object" ->
                            buildFilterQuery filters = Throw e ->
                            list_leads req st = Json 400 (ErrorBody "Invalid filters format"))
      /\ (forall search query, query_search req = Some search -> search <> "" ->
                               regexp_pattern_ok search = false ->
                               list_filters req = Return query ->
                               list_leads req st = NextError SyntaxError)).
Proof.
  split; [| intros Hvalid; split; [| split]].
  - intros Hne. unfold list_leads.
    destruct (validation_errors req); [contradiction | reflexivity].
  - intros text Hf Htext Hparse. unfold list_leads, list_filters.
    rewrite Hvalid, Hf. simpl.
    destruct (String.eqb_spec text ""); [contradiction |]. simpl.
    destruct Hparse as [-> | ->]; reflexivity.
  - intros filters e Hf Htruthy Htype Hthrow. unfold list_leads, list_filters.
    rewrite Hvalid, Hf, Htruthy.
    destruct filters; try discriminate Htype; try discriminate Htruthy;
      rewrite Hthrow; reflexivity.
  - intros search query Hs Hne Hbad Hq. unfold list_leads.
    rewrite Hvalid, Hq. unfold list_search. rewrite Hs.
    destruct (String.eqb_spec search ""); [contradiction |].
    unfold RegExp_new. simpl. rewrite Hbad. reflexivity.
Qed.

Lemma insert_sorted_length {A} (le : A -> A -> bool) x l :
  length (insert_sorted le x l) = S (length l).
Proof.
  induction l as [| y l IH]; simpl; [reflexivity |].
  destruct (le x y); simpl; [reflexivity | rewrite IH; reflexivity].
Qed.

Lemma sort_docs_length sortBy sortOrder docs :
  length (sort_docs sortBy sortOrder docs) = length docs.
Proof.
  unfold sort_docs, sort_by. induction docs as [| d docs IH]; simpl; [reflexivity |].
  rewrite insert_sorted_length, IH. reflexivity.
Qed.

(** X9. A page holds what is left for it. When the list handler answers a
    request with page and page size at least 1, the leads it returns number
    [min(L, max(0, N - (page-1)*L))] for [N] matching leads: never more
    than the page size, and none exactly when the page lies beyond
    [totalPages]. *)
Theorem page_holds_what_is_left req st found pg :
  list_leads req st = Json 200 (ListBody found pg) ->
  1 <= list_page req ->
  1 <= list_limit req ->
  Z.of_nat (length found)
  = Z.min (list_limit req)
      (Z.max 0 (totalLeads pg - (list_page req - 1) * list_limit req))
  /\ Z.of_nat (length found) <= list_limit req
  /\ (found = [] <-> totalPages pg < list_page req).
Proof.
  intros Hres Hpage Hlimit.
  destruct (list_leads_ok req st found pg Hres) as (query & Hq & _ & _ & Hpg).
  unfold list_leads in Hres.
  destruct (validation_errors req); [| discriminate Hres].
  destruct (list_filters req) as [q0 |]; [| discriminate Hres].
  simpl in Hq. rewrite Hq in Hres. simpl in Hres.
  destruct (Lead_find st query _ _ _ _) as [docs | e] eqn:Efind; [| discriminate Hres].
  apply Lead_find_returns in Efind as (s & l & Hskip & Hl & _ & _ & Hdocs).
  apply number_mul_finite in Hskip as (_ & Hl' & Hs).
  rewrite Hl' in Hl. injection Hl as <-.
  fold (list_page req) in Hs. fold (list_limit req) in Hs, Hdocs.
  unfold Lead_countDocuments in Hres.
  destruct (query_castable query); [| discriminate Hres].
  simpl in Hres. injection Hres as Hfound _.
  assert (Hlen : Z.of_nat (length found)
                 = Z.min (list_limit req)
                     (Z.max 0 (totalLeads pg - (list_page req - 1) * list_limit req))).
  { rewrite <- Hfound, length_map, Hdocs, length_take, length_drop, sort_docs_length.
    subst pg. simpl. rewrite <- Hs.
    assert (Hskip : 0 <= s) by nia.
    clear Hs Hdocs. revert Hskip. generalize s. intros skip Hskip.
    generalize (length (List.filter (doc_matches query) (leads st))). intros n.
    rewrite Nat2Z.inj_min, Nat2Z.inj_sub_max, !Z2Nat.id by lia.
    lia. }
  split; [exact Hlen |]. split; [lia |].
  assert (Hceil := Math_ceil_div_spec (totalLeads pg) (list_limit req) ltac:(lia)).
  assert (Htp : totalPages pg = Math_ceil_div (totalLeads pg) (list_limit req)).
  { subst pg. reflexivity. }
  rewrite <- Htp in Hceil.
  assert (Hnn : 0 <= totalLeads pg) by (subst pg; simpl; lia).
  split.
  - intros ->. simpl in Hlen. nia.
  - intros Hbeyond. destruct found as [| x found']; [reflexivity |].
    simpl length in Hlen. nia.
Qed.

End ListMore.

Lemma list_error_answers_witness :
  list_leads (list_request None None None None ["Page must be a positive integer"]) ten_leads
  = Json 400 (ValidationBody "Validation failed" ["Page must be a positive integer"])
  /\ list_leads (list_request None None None (Some (JStr "{")) []) ten_leads
     = Json 400 (ErrorBody "Invalid filters format")
  /\ list_leads (list_request None None None
                   (Some (JObj [("email", entry (JStr "contains") (JStr "("))])) [])
       ten_leads
     = Json 400 (ErrorBody "Invalid filters format")
  /\ list_leads (list_request None None (Some "(") None []) ten_leads
     = NextError SyntaxError.
Proof.
  refine (conj _ (conj _ (conj _ _))).
  - apply (proj1 (@list_error_answers sample_runtime
                    (list_request None None None None ["Page must be a positive integer"])
                    ten_leads)).
    discriminate.
  - apply (proj1 (proj2 (@list_error_answers sample_runtime
                           (list_request None None None (Some (JStr "{")) [])
                           ten_leads) eq_refl) "{" eq_refl).
    + discriminate.
    + left. reflexivity.
  - apply (proj1 (proj2 (proj2 (@list_error_answers sample_runtime
                                  (list_request None None None
                                     (Some (JObj [("email", entry (JStr "contains") (JStr "("))]))
                                     [])
                                  ten_leads) eq_refl))
             (JObj [("email", entry (JStr "contains") (JStr "("))]) SyntaxError);
      reflexivity.
  - apply (proj2 (proj2 (proj2 (@list_error_answers sample_runtime
                                  (list_request None None (Some "(") None [])
                                  ten_leads) eq_refl))
             "(" ∅ eq_refl).
    + discriminate.
    + reflexivity.
    + reflexivity.
Defined.

Lemma page_holds_what_is_left_witness :
  exists found pg,
    list_leads (list_request (Some "4") (Some "3") None None []) ten_leads
    = Json 200 (ListBody found pg)
    /\ Z.of_nat (length found) = Z.min 3 (Z.max 0 (totalLeads pg - (4 - 1) * 3))
    /\ Z.of_nat (length found) <= 3.
Proof.
  pose (req := list_request (Some "4") (Some "3") None None []).
  pose (found := match list_leads req ten_leads with
                 | Json _ (ListBody found _) => found
                 | _ => []
                 end).
  pose (pg := match list_leads req ten_leads with
              | Json _ (ListBody _ pg) => pg
              | _ => mk_pagination 0 1 0
              end).
  assert (Elist : list_leads req ten_leads = Json 200 (ListBody found pg))
    by (vm_compute; reflexivity).
  assert (Hpage : 1 <= list_page req) by (vm_compute; discriminate).
  assert (Hlimit : 1 <= list_limit req) by (vm_compute; discriminate).
  destruct (@page_holds_what_is_left sample_runtime req ten_leads found pg
              Elist Hpage Hlimit) as [Hlen [Hle _]].
  exists found, pg. split; [exact Elist |]. split; [exact Hlen | exact Hle].
Defined.

(** ** More of the auth guard *)

Lemma split_on_no_sep sep s :
  (forall c, In c (list_ascii_of_string s) -> c <> sep) ->
  split_on sep s = [s].
Proof.
  induction s as [| c s IH]; simpl; intros Hs; [reflexivity |].
  destruct (Ascii.eqb_spec c sep) as [-> | Hne].
  - exfalso. apply (Hs sep); [left; reflexivity | reflexivity].
  - rewrite IH; [reflexivity |]. intros c' Hc'. apply Hs. right. exact Hc'.
Qed.

Lemma split_on_first sep a b :
  (forall c, In c (list_ascii_of_string a) -> c <> sep) ->
  split_on sep (a +:+ String sep b) = a :: split_on sep b.
Proof.
  induction a as [| c a IH]; simpl; intros Ha.
  - rewrite Ascii.eqb_refl. reflexivity.
  - destruct (Ascii.eqb_spec c sep) as [-> | Hne].
    + exfalso. apply (Ha sep); [left; reflexivity | reflexivity].
    + rewrite IH; [reflexivity |]. intros c' Hc'. apply Ha. right. exact Hc'.
Qed.

Lemma no_space_spec s :
  no_space s = true -> forall c, In c (list_ascii_of_string s) -> c <> " "%char.
Proof.
  induction s as [| c s IH]; simpl; intros Hs c' Hc'; [destruct Hc' |].
  apply andb_true_iff in Hs as [Hc Hs].
  destruct Hc' as [<- | Hc'].
  - intros ->. discriminate Hc.
  - apply IH; assumption.
Qed.

Section GuardMore.
Context `{Backend}.

(** X10. The guard passes a request only on a token that is present and
    truthy, that [jwt.verify] accepts, and whose [id] names a user
    [User.findById] finds; the user it attaches is that user without the
    [password] field. Every other request is rejected with 401 or 500. *)
Theorem protect_passes_only_verified req st :
  (forall user,
      protect req st = Pass user <->
      exists token decoded found,
        request_token req = Some token /\ truthy (Some token) = true
        /\ jwt_verify token = Return decoded
        /\ User_findById st (js_get decoded "id") = Return (Some found)
        /\ user = delete "password" found)
  /\ (forall user, protect req st = Pass user -> user !! "password" = None)
  /\ (forall res, protect req st = Reject res ->
                  exists message, res = Json 401 (ErrorBody message)
                                  \/ res = Json 500 (ErrorBody message)).
Proof.
  assert (Hpass : forall user,
             protect req st = Pass user ->
             exists token decoded found,
               request_token req = Some token /\ truthy (Some token) = true
               /\ jwt_verify token = Return decoded
               /\ User_findById st (js_get decoded "id") = Return (Some found)
               /\ user = delete "password" found).
  { intros user. unfold protect.
    destruct (request_token req) as [token |]; [| discriminate].
    destruct (truthy (Some token)) eqn:Et; simpl; [| discriminate].
    destruct (jwt_verify token) as [decoded | e] eqn:Ev; simpl; [| discriminate].
    destruct (User_findById st (js_get decoded "id")) as [[found |] | e] eqn:Ef;
      simpl; try discriminate.
    intros Hr. injection Hr as <-. exists token, decoded, found. auto. }
  split; [| split].
  - intros user. split; [apply Hpass |].
    intros [token [decoded [found [Ht [Htruthy [Hv [Hf ->]]]]]]].
    unfold protect. rewrite Ht, Htruthy. simpl. rewrite Hv. simpl. rewrite Hf.
    reflexivity.
  - intros user Hu. destruct (Hpass user Hu) as [_ [_ [found [_ [_ [_ [_ ->]]]]]]].
    apply lookup_delete_eq.
  - assert (Hcatch : forall e, exists message,
               protect_catch e = Json 401 (ErrorBody message)
               \/ protect_catch e = Json 500 (ErrorBody message)).
    { intros e. unfold protect_catch.
      destruct (String.eqb _ _); [eexists; left; reflexivity |].
      destruct (String.eqb _ _); eexists; [left | right]; reflexivity. }
    intros res. unfold protect.
    destruct (request_token req) as [token |].
    + destruct (truthy (Some token)); simpl.
      * destruct (jwt_verify token) as [decoded | e]; simpl.
        -- destruct (User_findById st (js_get decoded "id")) as [[found |] | e];
             intros Hr; try discriminate Hr; injection Hr as <-.
           ++ eexists. left. reflexivity.
           ++ apply Hcatch.
        -- intros Hr. injection Hr as <-. apply Hcatch.
      * intros Hr. injection Hr as <-. eexists. left. reflexivity.
    + intros Hr. injection Hr as <-. eexists. left. reflexivity.
Qed.

(** X11. How the Authorization header is read when no cookie token is
    there: the token is the second of the words a single space separates,
    whatever the first word is, so the scheme is not checked; a header of
    one word, such as a bare token, yields no token, and the guard answers
    401 "Access denied. No token provided."; so does an empty second
    word. *)
Theorem header_token_is_second_word req st :
  truthy (cookies_token req) = false ->
  (forall scheme t,
      authorization req = Some (scheme +:+ " " +:+ t) ->
      no_space scheme = true -> no_space t = true ->
      request_token req = Some (JStr t)
      /\ (t = "" ->
          protect req st = Reject (Json 401 (ErrorBody "Access denied. No token provided."))))
  /\ (forall word,
        authorization req = Some word -> no_space word = true ->
        request_token req = None
        /\ protect req st = Reject (Json 401 (ErrorBody "Access denied. No token provided.")))
  /\ (authorization req = None ->
      protect req st = Reject (Json 401 (ErrorBody "Access denied. No token provided."))).
Proof.
  intros Hcookie.
  assert (Hrt : request_token req
                = JStr <$> (authorization req ≫= fun h => nth_error (split_on " " h) 1)).
  { unfold request_token, js_or. rewrite Hcookie. reflexivity. }
  split; [| split].
  - intros scheme t Hauth Hs Ht.
    assert (Htok : request_token req = Some (JStr t)).
    { assert (Hsplit : split_on " " (scheme +:+ " " +:+ t) = [scheme; t]).
      { change (scheme +:+ " " +:+ t) with (scheme +:+ String " "%char t).
        rewrite (split_on_first " " scheme t (no_space_spec _ Hs)).
        rewrite (split_on_no_sep " " t (no_space_spec _ Ht)). reflexivity. }
      rewrite Hrt, Hauth.
      change (JStr <$> nth_error (split_on " " (scheme +:+ " " +:+ t)) 1 = Some (JStr t)).
      rewrite Hsplit. reflexivity. }
    split; [exact Htok |].
    intros ->. unfold protect. rewrite Htok. reflexivity.
  - intros word Hauth Hw.
    assert (Htok : request_token req = None).
    { rewrite Hrt, Hauth.
      change (JStr <$> nth_error (split_on " " word) 1 = None).
      rewrite (split_on_no_sep " " word (no_space_spec _ Hw)). reflexivity. }
    split; [exact Htok |]. unfold protect. rewrite Htok. reflexivity.
  - intros Hauth. unfold protect. rewrite Hrt, Hauth. reflexivity.
Qed.

End GuardMore.

Lemma protect_passes_only_verified_witness :
  (exists token decoded found,
      request_token (with_tokens (plain_request GET []) (Some (JStr "token-u1")) None)
      = Some token
      /\ truthy (Some token) = true
      /\ jwt_verify token = Return decoded
      /\ User_findById ten_leads (js_get decoded "id") = Return (Some found)
      /\ delete "password" sample_user = delete "password" found)
  /\ (delete "password" sample_user : gmap string bson) !! "password" = None
  /\ exists message,
       Json 401 (ErrorBody "Token expired.") = Json 401 (ErrorBody message)
       \/ Json 401 (ErrorBody "Token expired.") = Json 500 (ErrorBody message).
Proof.
  pose (req := with_tokens (plain_request GET []) (Some (JStr "token-u1")) None).
  assert (Hpass : protect req ten_leads = Pass (delete "password" sample_user))
    by (vm_compute; reflexivity).
  destruct (protect_passes_only_verified req ten_leads) as [Hiff [Hnopw _]].
  refine (conj _ (conj _ _)).
  - apply (proj1 (Hiff _) Hpass).
  - apply (Hnopw _ Hpass).
  - apply (proj2 (proj2 (protect_passes_only_verified
                           (with_tokens (plain_request GET []) (Some (JStr "token-old")) None)
                           ten_leads))).
    vm_compute. reflexivity.
Defined.

Lemma header_token_is_second_word_witness :
  request_token (with_tokens (plain_request GET []) None (Some ("Basic" +:+ " " +:+ "token-u1")))
  = Some (JStr "token-u1")
  /\ protect (with_tokens (plain_request GET []) None (Some "token-u1")) ten_leads
     = Reject (Json 401 (ErrorBody "Access denied. No token provided.")).
Proof.
  split.
  - apply (proj1 (header_token_is_second_word
                    (with_tokens (plain_request GET []) None
                       (Some ("Basic" +:+ " " +:+ "token-u1")))
                    ten_leads eq_refl) "Basic" "token-u1"); reflexivity.
  - apply (proj1 (proj2 (header_token_is_second_word
                           (with_tokens (plain_request GET []) None (Some "token-u1"))
                           ten_leads eq_refl)) "token-u1"); reflexivity.
Defined.

(** ** More of the routers *)

Section RoutingMore.
Context `{Backend}.

(** X12. Under [/api/leads] the guard comes first on every path and
    method, matched by a route or not: a rejected request gets the guard's
    answer and nothing else happens. [GET /api/auth/me] runs its handler
    only after the guard has passed. And no request runs two handlers. *)
Theorem guard_comes_first req st :
  (forall api mount rest,
      req_path req = api :: mount :: rest ->
      lower api = "api" -> lower mount = "leads" ->
      (forall res, protect req st = Reject res -> app req st = [GuardRejected res])
      /\ (forall user, protect req st = Pass user ->
                       exists tail, app req st = GuardPassed :: tail))
  /\ (In (Ran Me) (app req st) ->
      (exists user, protect req st = Pass user)
      /\ app req st = [GuardPassed; Ran Me])
  /\ (forall h h', In (Ran h) (app req st) -> In (Ran h') (app req st) -> h = h').
Proof.
  assert (Hshape :
            app req st = []
            \/ (exists h, app req st = [Ran h] /\ In h [Register; Login; Logout])
            \/ (exists h user, app req st = [GuardPassed; Ran h]
                               /\ protect req st = Pass user)
            \/ (exists user, app req st = [GuardPassed] /\ protect req st = Pass user)
            \/ (exists res, app req st = [GuardRejected res]
                            /\ protect req st = Reject res)).
  { destruct (app_cases req st) as [Happ | [[rest Happ] | [rest Happ]]]; rewrite Happ.
    - left. reflexivity.
    - unfold authRoutes. simpl.
      repeat match goal with
             | |- context [layer_matches ?l ?r] => destruct (layer_matches l r); simpl
             end;
        try (right; left; eexists; split; [reflexivity | simpl; tauto]);
        try (left; reflexivity).
      rewrite protect_with_path.
      destruct (protect req st) as [user | res] eqn:Ep; simpl.
      + right. right. left. exists Me, user. auto.
      + right. right. right. right. exists res. auto.
    - destruct (dispatch_leadRoutes (with_path req rest) st)
        as [[res [Hp Hd]] | [user [Hp [Hd | [h [_ Hd]]]]]];
        rewrite Hd; rewrite protect_with_path in Hp.
      + right. right. right. right. exists res. auto.
      + right. right. right. left. exists user. auto.
      + right. right. left. exists h, user. auto. }
  split; [| split].
  - intros api mount rest Hpath Hapi Hmount.
    assert (Happ : app req st = dispatch leadRoutes (with_path req rest) st).
    { unfold app. rewrite Hpath, Hapi, Hmount. reflexivity. }
    destruct (dispatch_leadRoutes (with_path req rest) st)
      as [[res [Hp Hd]] | [user [Hp [Hd | [h [_ Hd]]]]]];
      rewrite protect_with_path in Hp; rewrite Happ, Hd; split.
    + intros res' Hx. rewrite Hp in Hx. injection Hx as ->. reflexivity.
    + intros user Hx. rewrite Hp in Hx. discriminate Hx.
    + intros res' Hx. rewrite Hp in Hx. discriminate Hx.
    + intros user' _. eexists. reflexivity.
    + intros res' Hx. rewrite Hp in Hx. discriminate Hx.
    + intros user' _. eexists. reflexivity.
  - intros Hin.
    destruct Hshape as [Hs | [[h [Hs Hh]] | [[h [user [Hs Hp]]] | [[user [Hs _]] | [res [Hs _]]]]]];
      rewrite Hs in Hin |- *; simpl in Hin.
    + destruct Hin.
    + destruct Hin as [Hin | []]. injection Hin as Hin. subst h. simpl in Hh.
      destruct Hh as [Hh | [Hh | [Hh | []]]]; discriminate Hh.
    + destruct Hin as [Hin | [Hin | []]]; [discriminate Hin |].
      injection Hin as Hin. subst h. split; [exists user; exact Hp | reflexivity].
    + destruct Hin as [Hin | []]. discriminate Hin.
    + destruct Hin as [Hin | []]. discriminate Hin.
  - intros h h' Hin Hin'.
    destruct Hshape as [Hs | [[h0 [Hs _]] | [[h0 [user [Hs _]]] | [[user [Hs _]] | [res [Hs _]]]]]];
      rewrite Hs in Hin, Hin'; simpl in Hin, Hin'.
    + destruct Hin.
    + destruct Hin as [Hin | []], Hin' as [Hin' | []]. congruence.
    + destruct Hin as [Hin | [Hin | []]], Hin' as [Hin' | [Hin' | []]];
        try discriminate; congruence.
    + destruct Hin as [Hin | []]. discriminate Hin.
    + destruct Hin as [Hin | []]. discriminate Hin.
Qed.

End RoutingMore.

Lemma guard_comes_first_witness :
  app (plain_request GET ["api"; "leads"; "no"; "such"; "route"]) ten_leads
  = [GuardRejected (Json 401 (ErrorBody "Access denied. No token provided."))]
  /\ app (with_tokens (plain_request GET ["api"; "auth"; "me"]) (Some (JStr "token-u1")) None)
         ten_leads
     = [GuardPassed; Ran Me].
Proof.
  split.
  - apply (proj1 (proj1 (guard_comes_first
                           (plain_request GET ["api"; "leads"; "no"; "such"; "route"])
                           ten_leads)
                    "api" "leads" ["no"; "such"; "route"] eq_refl eq_refl eq_refl)).
    reflexivity.
  - apply (proj1 (proj2 (guard_comes_first
                           (with_tokens (plain_request GET ["api"; "auth"; "me"])
                              (Some (JStr "token-u1")) None)
                           ten_leads))).
    right. left. reflexivity.
Defined.

(** ** More of the auth handlers *)

Ltac failed_answer :=
  split;
  [split; [intros [v [o Hx]]; discriminate Hx | intros [b Hx]; discriminate Hx]
  | split; auto].

Section AuthMore.
Context `{Backend}.

(** X13. A login with an email no user has and a login with a wrong
    password get the same answer, 401 "Invalid credentials", with no cookie
    and the store as it was. *)
Theorem login_failures_look_alike req now st :
  validation_errors req = [] ->
  (User_findOne st (js_get (body req) "email") = Return None ->
   login req now st = (Json 401 (ErrorBody "Invalid credentials"), st, NoCookie))
  /\ (forall user,
         User_findOne st (js_get (body req) "email") = Return (Some user) ->
         comparePassword user (js_get (body req) "password") = Return false ->
         login req now st = (Json 401 (ErrorBody "Invalid credentials"), st, NoCookie)).
Proof.
  intros Hvalid. unfold login. rewrite Hvalid. split.
  - intros ->. reflexivity.
  - intros user -> ->. reflexivity.
Qed.

(** X14. The session cookie is set on success and only then. Register sets
    it exactly when it answers 201, login exactly when it answers 200;
    neither ever clears it. When register does not answer 201 the store is
    as it was, with one exception: when signing the token throws, the user
    is already saved, the error goes to [next], and no cookie is set. For
    an email that is already taken register answers 400 before saving
    anything; and login never changes the store. *)
Theorem cookie_only_on_success req now st :
  (forall res st' effect,
      register req now st = (res, st', effect) ->
      ((exists value options, effect = SetCookie "token" value options)
       <-> exists b, res = Json 201 b)
      /\ (effect = NoCookie \/ exists value options, effect = SetCookie "token" value options)
      /\ ((forall b, res <> Json 201 b) ->
          st' = st
          \/ exists user e,
               User_save st (js_get (body req) "firstName") (js_get (body req) "lastName")
                 (js_get (body req) "email") (js_get (body req) "password")
               = Return (user, st')
               /\ generateToken (user_id user) now = Throw e
               /\ res = NextError e))
  /\ (forall user st1 e,
         validation_errors req = [] ->
         User_findOne st (js_get (body req) "email") = Return None ->
         User_save st (js_get (body req) "firstName") (js_get (body req) "lastName")
           (js_get (body req) "email") (js_get (body req) "password")
         = Return (user, st1) ->
         generateToken (user_id user) now = Throw e ->
         register req now st = (NextError e, st1, NoCookie))
  /\ (forall existing,
         validation_errors req = [] ->
         User_findOne st (js_get (body req) "email") = Return (Some existing) ->
         register req now st
         = (Json 400 (ErrorBody "User already exists with this email"), st, NoCookie))
  /\ (forall res st' effect,
         login req now st = (res, st', effect) ->
         ((exists value options, effect = SetCookie "token" value options)
          <-> exists b, res = Json 200 b)
         /\ (effect = NoCookie \/ exists value options, effect = SetCookie "token" value options)
         /\ st' = st).
Proof.
  split; [| split; [| split]].
  - intros res st' effect. unfold register.
    destruct (validation_errors req).
    + destruct (User_findOne st _) as [[existing |] | e].
      * intros Hr. injection Hr as <- <- <-. failed_answer.
      * destruct (User_save st _ _ _ _) as [[user st1] | e];
          [| intros Hr; injection Hr as <- <- <-; failed_answer].
        destruct (generateToken (user_id user) now) as [token | e] eqn:Etoken;
          intros Hr; injection Hr as <- <- <-.
        -- split; [split; intros _; eexists; try eexists; reflexivity |].
           split; [right; eexists; eexists; reflexivity |].
           intros Hnot. exfalso. eapply Hnot. reflexivity.
        -- split;
             [split; [intros [v [o Hx]]; discriminate Hx | intros [b Hx]; discriminate Hx] |].
           split; [left; reflexivity |].
           intros _. right. exists user, e. auto.
      * intros Hr. injection Hr as <- <- <-. failed_answer.
    + intros Hr. injection Hr as <- <- <-. failed_answer.
  - intros user st1 e Hvalid Hfree Hsave Hsign. unfold register.
    rewrite Hvalid, Hfree, Hsave, Hsign. reflexivity.
  - intros existing Hvalid Hfound. unfold register. rewrite Hvalid, Hfound. reflexivity.
  - intros res st' effect. unfold login.
    destruct (validation_errors req).
    + destruct (User_findOne st _) as [[user |] | e].
      * destruct (comparePassword user _) as [[|] | e];
          [| intros Hr; injection Hr as <- <- <-; failed_answer
           | intros Hr; injection Hr as <- <- <-; failed_answer].
        destruct (generateToken (user_id user) now) as [token | e];
          intros Hr; injection Hr as <- <- <-; [| failed_answer].
        split; [split; intros _; eexists; try eexists; reflexivity |].
        split; [right; eexists; eexists; reflexivity | reflexivity].
      * intros Hr. injection Hr as <- <- <-. failed_answer.
      * intros Hr. injection Hr as <- <- <-. failed_answer.
    + intros Hr. injection Hr as <- <- <-. failed_answer.
Qed.

(** X15. Logout answers 200 for every request, leaves the store as it was,
    and clears the cookie under the very name and attributes with which
    register and login set it ([httpOnly], [secure], [sameSite], [path]),
    leaving out only [maxAge]. *)
Theorem logout_clears_what_was_set req now st res st' name value options :
  register req now st = (res, st', SetCookie name value options)
  \/ login req now st = (res, st', SetCookie name value options) ->
  forall req',
  exists cleared,
    logout req' st' = (Json 200 (MessageBody "Logout successful"), st',
                       ClearCookie name cleared)
    /\ httpOnly cleared = httpOnly options
    /\ secure cleared = secure options
    /\ sameSite cleared = sameSite options
    /\ cookie_path cleared = cookie_path options
    /\ maxAge cleared = None.
Proof.
  intros Hset req'.
  assert (Hopts : name = "token" /\ httpOnly options = true /\ secure options = true
                  /\ sameSite options = "none" /\ cookie_path options = "/").
  { destruct Hset as [Hr | Hl].
    - unfold register in Hr.
      destruct (validation_errors req); [| discriminate Hr].
      destruct (User_findOne st _) as [[existing |] | e]; try discriminate Hr.
      destruct (User_save st _ _ _ _) as [[user st1] | e]; [| discriminate Hr].
      destruct (generateToken (user_id user) now); [| discriminate Hr].
      injection Hr as _ _ <- _ <-. auto.
    - unfold login in Hl.
      destruct (validation_errors req); [| discriminate Hl].
      destruct (User_findOne st _) as [[user |] | e]; try discriminate Hl.
      destruct (comparePassword user _) as [[|] | e]; try discriminate Hl.
      destruct (generateToken (user_id user) now); [| discriminate Hl].
      injection Hl as _ _ <- _ <-. auto. }
  destruct Hopts as [-> [Hh [Hs [Hss Hp]]]].
  eexists. split; [reflexivity |]. simpl. auto.
Qed.

End AuthMore.

Lemma login_failures_look_alike_witness :
  login (with_body (plain_request POST ["login"])
           (JObj [("email", JStr "nobody@example.com"); ("password", JStr "password123")]))
    5000 ten_leads
  = (Json 401 (ErrorBody "Invalid credentials"), ten_leads, NoCookie)
  /\ login (with_body (plain_request POST ["login"])
              (JObj [("email", JStr "test@leadmanager.com"); ("password", JStr "guess")]))
       5000 ten_leads
     = (Json 401 (ErrorBody "Invalid credentials"), ten_leads, NoCookie).
Proof.
  split.
  - apply (proj1 (login_failures_look_alike
                    (with_body (plain_request POST ["login"])
                       (JObj [("email", JStr "nobody@example.com");
                              ("password", JStr "password123")]))
                    5000 ten_leads eq_refl)).
    vm_compute. reflexivity.
  - apply (proj2 (login_failures_look_alike
                    (with_body (plain_request POST ["login"])
                       (JObj [("email", JStr "test@leadmanager.com");
                              ("password", JStr "guess")]))
                    5000 ten_leads eq_refl) sample_user).
    + vm_compute. reflexivity.
    + vm_compute. reflexivity.
Defined.

Lemma cookie_only_on_success_witness :
  ((exists value options,
       snd (register register_request 5000 ten_leads) = SetCookie "token" value options)
   <-> exists b, fst (fst (register register_request 5000 ten_leads)) = Json 201 b)
  /\ (exists st1,
         @register secretless_backend register_request 5000 ten_leads
         = (NextError (OtherError "Error"), st1, NoCookie)
         /\ length (users st1) = 2%nat)
  /\ register (with_body (plain_request POST ["register"])
                 (JObj [("firstName", JStr "A"); ("lastName", JStr "B");
                        ("email", JStr "test@leadmanager.com");
                        ("password", JStr "secret1")]))
       5000 ten_leads
     = (Json 400 (ErrorBody "User already exists with this email"), ten_leads, NoCookie)
  /\ snd (fst (login login_request 5000 ten_leads)) = ten_leads.
Proof.
  refine (conj _ (conj _ (conj _ _))).
  - apply (proj1 (cookie_only_on_success register_request 5000 ten_leads)
             (fst (fst (register register_request 5000 ten_leads)))
             (snd (fst (register register_request 5000 ten_leads)))).
    destruct (register register_request 5000 ten_leads) as [[res st'] effect].
    reflexivity.
  - pose (saved := @User_save secretless_backend ten_leads
                     (js_get (body register_request) "firstName")
                     (js_get (body register_request) "lastName")
                     (js_get (body register_request) "email")
                     (js_get (body register_request) "password")).
    pose (user := match saved with Return (user, _) => user | Throw _ => ∅ end).
    pose (st1 := match saved with Return (_, st1) => st1 | Throw _ => ten_leads end).
    exists st1. split; [| vm_compute; reflexivity].
    apply (proj1 (proj2 (@cookie_only_on_success secretless_backend
                           register_request 5000 ten_leads)) user st1).
    + reflexivity.
    + vm_compute. reflexivity.
    + vm_compute. reflexivity.
    + vm_compute. reflexivity.
  - apply (proj1 (proj2 (proj2 (cookie_only_on_success
                           (with_body (plain_request POST ["register"])
                              (JObj [("firstName", JStr "A"); ("lastName", JStr "B");
                                     ("email", JStr "test@leadmanager.com");
                                     ("password", JStr "secret1")]))
                           5000 ten_leads))) sample_user eq_refl).
    vm_compute. reflexivity.
  - apply (proj2 (proj2 (proj2 (cookie_only_on_success login_request 5000 ten_leads)))
             (fst (fst (login login_request 5000 ten_leads))) _
             (snd (login login_request 5000 ten_leads))).
    destruct (login login_request 5000 ten_leads) as [[res st'] effect].
    reflexivity.
Defined.

Lemma logout_clears_what_was_set_witness :
  exists cleared,
    logout (plain_request POST ["logout"]) ten_leads
    = (Json 200 (MessageBody "Logout successful"), ten_leads, ClearCookie "token" cleared)
    /\ httpOnly cleared = true
    /\ secure cleared = true
    /\ sameSite cleared = "none"
    /\ cookie_path cleared = "/"
    /\ maxAge cleared = None.
Proof.
  pose (out := login login_request 5000 ten_leads).
  pose (value := match snd out with SetCookie _ value _ => value | _ => "" end).
  assert (Elog : login login_request 5000 ten_leads
                 = (fst (fst out), ten_leads,
                    SetCookie "token" value
                      {| httpOnly := true; secure := true; sameSite := "none";
                         maxAge := Some 604800000; cookie_path := "/" |}))
    by (vm_compute; reflexivity).
  apply (logout_clears_what_was_set login_request 5000 ten_leads _ _ _ _ _
           (or_intror Elog) (plain_request POST ["logout"])).
Defined.

(** ** The data of an update and of a new lead *)

Lemma assoc_map_snd {A B} (f : A -> B) key (props : list (string * A)) :
  assoc key (map (fun p => (fst p, f (snd p))) props) = f <$> assoc key props.
Proof.
  induction props as [| [k v] props IH]; simpl; [reflexivity |].
  destruct (String.eqb k key); [reflexivity | exact IH].
Qed.

Lemma assoc_assoc_set {A} key key' (v : A) props :
  assoc key (assoc_set key' v props)
  = if String.eqb key' key then Some v else assoc key props.
Proof.
  induction props as [| [k old] props IH]; simpl.
  - destruct (String.eqb key' key); reflexivity.
  - destruct (String.eqb_spec k key') as [-> | Hne]; simpl.
    + destruct (String.eqb key' key); reflexivity.
    + destruct (String.eqb_spec k key) as [-> | Hne'].
      * destruct (String.eqb_spec key' key) as [-> | _]; [contradiction | reflexivity].
      * exact IH.
Qed.

Section LeadData.
Context `{JsRuntime}.

(** X16. What the two write handlers make of the body. The update handler
    forwards every key of the body as it came, [createdAt] and [createdBy]
    included, and only turns a truthy [lastActivityAt] into a Date. The
    create handler does the same except that [createdBy] is always the id
    of the user the guard attached, whatever the body carries under that
    name. *)
Theorem body_is_forwarded req props :
  body req = JObj props ->
  (forall updateData,
      updateData_of req = Return updateData ->
      (forall key, key <> "lastActivityAt" ->
                   assoc key updateData = UJson <$> assoc key props)
      /\ assoc "createdAt" updateData = UJson <$> assoc "createdAt" props
      /\ assoc "createdBy" updateData = UJson <$> assoc "createdBy" props)
  /\ (forall user leadData,
         leadData_of req user = Return leadData ->
         assoc "createdBy" leadData = Some (LId (user !! "_id"))
         /\ (forall key, key <> "lastActivityAt" -> key <> "createdBy" ->
                         assoc key leadData = LJson <$> assoc key props))
  /\ (truthy (assoc "lastActivityAt" props) = false ->
      updateData_of req = Return (map (fun p => (fst p, UJson (snd p))) props)).
Proof.
  intros Hbody. split; [| split].
  - intros updateData Hrun.
    assert (Hfwd : forall key, key <> "lastActivityAt" ->
                               assoc key updateData = UJson <$> assoc key props).
    { intros key Hkey. unfold updateData_of in Hrun. rewrite Hbody in Hrun.
      cbn -[truthy Date_new] in Hrun.
      destruct (assoc "lastActivityAt" props) as [v |].
      - destruct (truthy (Some v)).
        + destruct (Date_new v) as [d |]; simpl in Hrun; [| discriminate Hrun].
          injection Hrun as <-.
          rewrite assoc_assoc_set.
          destruct (String.eqb_spec "lastActivityAt" key) as [<- | _];
            [contradiction |].
          apply assoc_map_snd.
        + injection Hrun as <-. apply assoc_map_snd.
      - injection Hrun as <-. apply assoc_map_snd. }
    split; [exact Hfwd |]. split; apply Hfwd; discriminate.
  - intros user leadData Hrun.
    unfold leadData_of in Hrun. rewrite Hbody in Hrun.
    cbn -[truthy Date_new assoc_set] in Hrun.
    assert (Hbase : forall key,
               assoc key (assoc_set "createdBy" (LId (user !! "_id"))
                            (map (fun p => (fst p, LJson (snd p))) props))
               = if String.eqb "createdBy" key then Some (LId (user !! "_id"))
                 else LJson <$> assoc key props).
    { intros key. rewrite assoc_assoc_set, assoc_map_snd. reflexivity. }
    assert (Hshape :
              leadData = assoc_set "createdBy" (LId (user !! "_id"))
                           (map (fun p => (fst p, LJson (snd p))) props)
              \/ exists d, leadData
                           = assoc_set "lastActivityAt" (LDate d)
                               (assoc_set "createdBy" (LId (user !! "_id"))
                                  (map (fun p => (fst p, LJson (snd p))) props))).
    { destruct (assoc "lastActivityAt" props) as [v |].
      - destruct (truthy (Some v)).
        + destruct (Date_new v) as [d |]; simpl in Hrun; [| discriminate Hrun].
          injection Hrun as <-. right. exists d. reflexivity.
        + injection Hrun as <-. left. reflexivity.
      - injection Hrun as <-. left. reflexivity. }
    destruct Hshape as [-> | [d ->]].
    + split; [rewrite Hbase; reflexivity |].
      intros key _ Hkey. rewrite Hbase.
      destruct (String.eqb_spec "createdBy" key) as [<- | _]; [contradiction | reflexivity].
    + split.
      * rewrite assoc_assoc_set, Hbase. reflexivity.
      * intros key Hkey1 Hkey2. rewrite assoc_assoc_set, Hbase.
        destruct (String.eqb_spec "lastActivityAt" key) as [<- | _]; [contradiction |].
        destruct (String.eqb_spec "createdBy" key) as [<- | _]; [contradiction |].
        reflexivity.
  - intros Hfalsy. unfold updateData_of. rewrite Hbody. cbn -[truthy Date_new].
    destruct (assoc "lastActivityAt" props) as [v |]; [| reflexivity].
    rewrite Hfalsy. reflexivity.
Qed.

(** X17. The validator of [lastActivityAt] and the handlers agree. When
    the custom validator accepts the body's [lastActivityAt], building the
    update data does not throw, and what it holds under [lastActivityAt] is
    nothing, the falsy value as it came, or a valid Date, never an Invalid
    Date. *)
Theorem validated_activity_date_converts req props :
  body req = JObj props ->
  lastActivityAt_custom (assoc "lastActivityAt" props) = Return true ->
  exists updateData,
    updateData_of req = Return updateData
    /\ (assoc "lastActivityAt" updateData = None
        \/ (exists v, assoc "lastActivityAt" updateData = Some (UJson v)
                      /\ truthy (Some v) = false)
        \/ exists t, assoc "lastActivityAt" updateData = Some (UDate (Some t))).
Proof.
  intros Hbody Hvalid. unfold updateData_of. rewrite Hbody. cbn -[truthy Date_new].
  unfold lastActivityAt_custom in Hvalid.
  destruct (assoc "lastActivityAt" props) as [v |] eqn:Ev.
  - destruct (truthy (Some v)) eqn:Et; cbn [negb orb] in Hvalid.
    + assert (Hd : exists t, Date_new v = Return (Some t)).
      { assert (Hnot : (match v with JNull => true | _ => false end
                        || is_str (Some v) "") = false).
        { destruct v; try reflexivity; simpl in Et |- *; try discriminate Et.
          destruct (String.eqb s ""); [discriminate Et | reflexivity]. }
        rewrite Hnot in Hvalid.
        destruct (Date_new v) as [[t |] |]; try discriminate Hvalid.
        exists t. reflexivity. }
      destruct Hd as [t Hd]. rewrite Hd. simpl. eexists. split; [reflexivity |].
      right. right. exists t. rewrite assoc_assoc_set. reflexivity.
    + eexists. split; [reflexivity |]. right. left. exists v.
      rewrite assoc_map_snd, Ev. auto.
  - eexists. split; [reflexivity |]. left. rewrite assoc_map_snd, Ev. reflexivity.
Qed.

End LeadData.

Lemma body_is_forwarded_witness :
  (exists updateData,
      updateData_of put_with_creation_fields = Return updateData
      /\ assoc "createdBy" updateData = Some (UJson (JStr "u9"))
      /\ assoc "createdAt" updateData = Some (UJson (JNum 1)))
  /\ (exists leadData,
         leadData_of put_with_creation_fields (delete "password" sample_user) = Return leadData
         /\ assoc "createdBy" leadData = Some (LId (Some (BId "u1")))).
Proof.
  pose (props := match body put_with_creation_fields with JObj props => props | _ => [] end).
  destruct (@body_is_forwarded sample_runtime put_with_creation_fields props eq_refl)
    as [Hupdate [Hcreate _]].
  split.
  - exists (map (fun p => (fst p, UJson (snd p))) props).
    assert (Hrun : updateData_of put_with_creation_fields
                   = Return (map (fun p => (fst p, UJson (snd p))) props))
      by reflexivity.
    destruct (Hupdate _ Hrun) as [_ [HcreatedAt HcreatedBy]].
    split; [exact Hrun |]. split; [exact HcreatedBy | exact HcreatedAt].
  - pose (leadData := assoc_set "createdBy" (LId ((delete "password" sample_user) !! "_id"))
                        (map (fun p => (fst p, LJson (snd p))) props)).
    assert (Hrun : leadData_of put_with_creation_fields (delete "password" sample_user)
                   = Return leadData)
      by reflexivity.
    exists leadData. split; [exact Hrun |].
    rewrite (proj1 (Hcreate _ _ Hrun)). vm_compute. reflexivity.
Defined.

Lemma validated_activity_date_converts_witness :
  exists updateData,
    updateData_of (with_body (plain_request PUT ["l3"])
                     (JObj [("firstName", JStr "Jane"); ("lastActivityAt", JNum 86400000)]))
    = Return updateData
    /\ (assoc "lastActivityAt" updateData = None
        \/ (exists v, assoc "lastActivityAt" updateData = Some (UJson v)
                      /\ truthy (Some v) = false)
        \/ exists t, assoc "lastActivityAt" updateData = Some (UDate (Some t))).
Proof.
  apply (@validated_activity_date_converts sample_runtime
           (with_body (plain_request PUT ["l3"])
              (JObj [("firstName", JStr "Jane"); ("lastActivityAt", JNum 86400000)]))
           [("firstName", JStr "Jane"); ("lastActivityAt", JNum 86400000)]
           eq_refl).
  reflexivity.
Defined.

